(** * View-model layer of the devops-demo admin app

    A shallow embedding of the script blocks (and the bindings of the
    templates) of three Vue single-file components:

    - [views/cluster/list.vue]    : search / filter / paginate / select,
    - [views/dashboard/index.vue] : statistics, charts and the refresh timer,
    - [views/cluster/detail.vue]  : the record resolver and its tabs.

    JavaScript numbers that hold counts and indices are integers ([Z]),
    a string is given by its UTF-8 encoding ([string]); the module
    [mock/data] is not part of the sources at hand, so the arrays it
    exports are fields of the component state or of the record
    [MockData]. *)

From Stdlib Require Import ZArith Ascii String Lia.
From Stdlib Require Import Floats.PrimFloat.
From stdpp Require Import base decidable option list strings gmap pretty.

Open Scope string_scope.
Open Scope Z_scope.

(* Decimal literals denote the nearest double, as they do in the source. *)
Set Warnings "-inexact-float".

(** ** Unicode case conversion

    [String.prototype.toLowerCase] is the default lower-case conversion
    of the Unicode standard: the simple lower-case mapping of each code
    point, with the two mappings of [SpecialCasing.txt] that hold in
    every language: capital sigma in final position, and capital I with
    dot above.  The three tables are those of Unicode 14.0. *)

Module Unicode.

(** Simple lower-case mappings, as runs: the code points [first],
    [first + step], ... up to [last] map to themselves plus [delta]. *)
Definition Lowercase_Mapping : list (Z * Z * Z * Z) :=
  [
    (65, 90, 1, 32); (192, 214, 1, 32); (216, 222, 1, 32); (256, 302, 2, 1);
    (306, 310, 2, 1); (313, 327, 2, 1); (330, 374, 2, 1); (376, 376, 1, -121);
    (377, 381, 2, 1); (385, 385, 1, 210); (386, 388, 2, 1); (390, 390, 1, 206);
    (391, 391, 1, 1); (393, 394, 1, 205); (395, 395, 1, 1); (398, 398, 1, 79);
    (399, 399, 1, 202); (400, 400, 1, 203); (401, 401, 1, 1); (403, 403, 1, 205);
    (404, 404, 1, 207); (406, 406, 1, 211); (407, 407, 1, 209); (408, 408, 1, 1);
    (412, 412, 1, 211); (413, 413, 1, 213); (415, 415, 1, 214); (416, 420, 2, 1);
    (422, 422, 1, 218); (423, 423, 1, 1); (425, 425, 1, 218); (428, 428, 1, 1);
    (430, 430, 1, 218); (431, 431, 1, 1); (433, 434, 1, 217); (435, 437, 2, 1);
    (439, 439, 1, 219); (440, 440, 1, 1); (444, 444, 1, 1); (452, 452, 1, 2);
    (453, 453, 1, 1); (455, 455, 1, 2); (456, 456, 1, 1); (458, 458, 1, 2);
    (459, 475, 2, 1); (478, 494, 2, 1); (497, 497, 1, 2); (498, 500, 2, 1);
    (502, 502, 1, -97); (503, 503, 1, -56); (504, 542, 2, 1); (544, 544, 1, -130);
    (546, 562, 2, 1); (570, 570, 1, 10795); (571, 571, 1, 1); (573, 573, 1, -163);
    (574, 574, 1, 10792); (577, 577, 1, 1); (579, 579, 1, -195); (580, 580, 1, 69);
    (581, 581, 1, 71); (582, 590, 2, 1); (880, 882, 2, 1); (886, 886, 1, 1);
    (895, 895, 1, 116); (902, 902, 1, 38); (904, 906, 1, 37); (908, 908, 1, 64);
    (910, 911, 1, 63); (913, 929, 1, 32); (931, 939, 1, 32); (975, 975, 1, 8);
    (984, 1006, 2, 1); (1012, 1012, 1, -60); (1015, 1015, 1, 1); (1017, 1017, 1, -7);
    (1018, 1018, 1, 1); (1021, 1023, 1, -130); (1024, 1039, 1, 80); (1040, 1071, 1, 32);
    (1120, 1152, 2, 1); (1162, 1214, 2, 1); (1216, 1216, 1, 15); (1217, 1229, 2, 1);
    (1232, 1326, 2, 1); (1329, 1366, 1, 48); (4256, 4293, 1, 7264); (4295, 4295, 1, 7264);
    (4301, 4301, 1, 7264); (5024, 5103, 1, 38864); (5104, 5109, 1, 8); (7312, 7354, 1, -3008);
    (7357, 7359, 1, -3008); (7680, 7828, 2, 1); (7838, 7838, 1, -7615); (7840, 7934, 2, 1);
    (7944, 7951, 1, -8); (7960, 7965, 1, -8); (7976, 7983, 1, -8); (7992, 7999, 1, -8);
    (8008, 8013, 1, -8); (8025, 8031, 2, -8); (8040, 8047, 1, -8); (8072, 8079, 1, -8);
    (8088, 8095, 1, -8); (8104, 8111, 1, -8); (8120, 8121, 1, -8); (8122, 8123, 1, -74);
    (8124, 8124, 1, -9); (8136, 8139, 1, -86); (8140, 8140, 1, -9); (8152, 8153, 1, -8);
    (8154, 8155, 1, -100); (8168, 8169, 1, -8); (8170, 8171, 1, -112); (8172, 8172, 1, -7);
    (8184, 8185, 1, -128); (8186, 8187, 1, -126); (8188, 8188, 1, -9); (8486, 8486, 1, -7517);
    (8490, 8490, 1, -8383); (8491, 8491, 1, -8262); (8498, 8498, 1, 28); (8544, 8559, 1, 16);
    (8579, 8579, 1, 1); (9398, 9423, 1, 26); (11264, 11311, 1, 48); (11360, 11360, 1, 1);
    (11362, 11362, 1, -10743); (11363, 11363, 1, -3814); (11364, 11364, 1, -10727); (11367, 11371, 2, 1);
    (11373, 11373, 1, -10780); (11374, 11374, 1, -10749); (11375, 11375, 1, -10783); (11376, 11376, 1, -10782);
    (11378, 11378, 1, 1); (11381, 11381, 1, 1); (11390, 11391, 1, -10815); (11392, 11490, 2, 1);
    (11499, 11501, 2, 1); (11506, 11506, 1, 1); (42560, 42604, 2, 1); (42624, 42650, 2, 1);
    (42786, 42798, 2, 1); (42802, 42862, 2, 1); (42873, 42875, 2, 1); (42877, 42877, 1, -35332);
    (42878, 42886, 2, 1); (42891, 42891, 1, 1); (42893, 42893, 1, -42280); (42896, 42898, 2, 1);
    (42902, 42920, 2, 1); (42922, 42922, 1, -42308); (42923, 42923, 1, -42319); (42924, 42924, 1, -42315);
    (42925, 42925, 1, -42305); (42926, 42926, 1, -42308); (42928, 42928, 1, -42258); (42929, 42929, 1, -42282);
    (42930, 42930, 1, -42261); (42931, 42931, 1, 928); (42932, 42946, 2, 1); (42948, 42948, 1, -48);
    (42949, 42949, 1, -42307); (42950, 42950, 1, -35384); (42951, 42953, 2, 1); (42960, 42960, 1, 1);
    (42966, 42968, 2, 1); (42997, 42997, 1, 1); (65313, 65338, 1, 32); (66560, 66599, 1, 40);
    (66736, 66771, 1, 40); (66928, 66938, 1, 39); (66940, 66954, 1, 39); (66956, 66962, 1, 39);
    (66964, 66965, 1, 39); (68736, 68786, 1, 64); (71840, 71871, 1, 32); (93760, 93791, 1, 32);
    (125184, 125217, 1, 34) ].

(** The code points with the property [Cased], as ranges. *)
Definition Cased : list (Z * Z) :=
  [
    (65, 90); (97, 122); (170, 170); (181, 181); (186, 186); (192, 214);
    (216, 246); (248, 442); (444, 447); (452, 659); (661, 696); (704, 705);
    (736, 740); (837, 837); (880, 883); (886, 887); (890, 893); (895, 895);
    (902, 902); (904, 906); (908, 908); (910, 929); (931, 1013); (1015, 1153);
    (1162, 1327); (1329, 1366); (1376, 1416); (4256, 4293); (4295, 4295); (4301, 4301);
    (4304, 4346); (4349, 4351); (5024, 5109); (5112, 5117); (7296, 7304); (7312, 7354);
    (7357, 7359); (7424, 7615); (7680, 7957); (7960, 7965); (7968, 8005); (8008, 8013);
    (8016, 8023); (8025, 8025); (8027, 8027); (8029, 8029); (8031, 8061); (8064, 8116);
    (8118, 8124); (8126, 8126); (8130, 8132); (8134, 8140); (8144, 8147); (8150, 8155);
    (8160, 8172); (8178, 8180); (8182, 8188); (8305, 8305); (8319, 8319); (8336, 8348);
    (8450, 8450); (8455, 8455); (8458, 8467); (8469, 8469); (8473, 8477); (8484, 8484);
    (8486, 8486); (8488, 8488); (8490, 8493); (8495, 8500); (8505, 8505); (8508, 8511);
    (8517, 8521); (8526, 8526); (8544, 8575); (8579, 8580); (9398, 9449); (11264, 11492);
    (11499, 11502); (11506, 11507); (11520, 11557); (11559, 11559); (11565, 11565); (42560, 42605);
    (42624, 42653); (42786, 42887); (42891, 42894); (42896, 42954); (42960, 42961); (42963, 42963);
    (42965, 42969); (42997, 42998); (43000, 43002); (43824, 43866); (43868, 43880); (43888, 43967);
    (64256, 64262); (64275, 64279); (65313, 65338); (65345, 65370); (66560, 66639); (66736, 66771);
    (66776, 66811); (66928, 66938); (66940, 66954); (66956, 66962); (66964, 66965); (66967, 66977);
    (66979, 66993); (66995, 67001); (67003, 67004); (67456, 67456); (67459, 67461); (67463, 67504);
    (67506, 67514); (68736, 68786); (68800, 68850); (71840, 71903); (93760, 93823); (119808, 119892);
    (119894, 119964); (119966, 119967); (119970, 119970); (119973, 119974); (119977, 119980); (119982, 119993);
    (119995, 119995); (119997, 120003); (120005, 120069); (120071, 120074); (120077, 120084); (120086, 120092);
    (120094, 120121); (120123, 120126); (120128, 120132); (120134, 120134); (120138, 120144); (120146, 120485);
    (120488, 120512); (120514, 120538); (120540, 120570); (120572, 120596); (120598, 120628); (120630, 120654);
    (120656, 120686); (120688, 120712); (120714, 120744); (120746, 120770); (120772, 120779); (122624, 122633);
    (122635, 122654); (125184, 125251); (127280, 127305); (127312, 127337); (127344, 127369) ].

(** The code points with the property [Case_Ignorable], as ranges. *)
Definition Case_Ignorable : list (Z * Z) :=
  [
    (39, 39); (46, 46); (58, 58); (94, 94); (96, 96); (168, 168);
    (173, 173); (175, 175); (180, 180); (183, 184); (688, 879); (884, 885);
    (890, 890); (900, 901); (903, 903); (1155, 1161); (1369, 1369); (1375, 1375);
    (1425, 1469); (1471, 1471); (1473, 1474); (1476, 1477); (1479, 1479); (1524, 1524);
    (1536, 1541); (1552, 1562); (1564, 1564); (1600, 1600); (1611, 1631); (1648, 1648);
    (1750, 1757); (1759, 1768); (1770, 1773); (1807, 1807); (1809, 1809); (1840, 1866);
    (1958, 1968); (2027, 2037); (2042, 2042); (2045, 2045); (2070, 2093); (2137, 2139);
    (2184, 2184); (2192, 2193); (2200, 2207); (2249, 2306); (2362, 2362); (2364, 2364);
    (2369, 2376); (2381, 2381); (2385, 2391); (2402, 2403); (2417, 2417); (2433, 2433);
    (2492, 2492); (2497, 2500); (2509, 2509); (2530, 2531); (2558, 2558); (2561, 2562);
    (2620, 2620); (2625, 2626); (2631, 2632); (2635, 2637); (2641, 2641); (2672, 2673);
    (2677, 2677); (2689, 2690); (2748, 2748); (2753, 2757); (2759, 2760); (2765, 2765);
    (2786, 2787); (2810, 2815); (2817, 2817); (2876, 2876); (2879, 2879); (2881, 2884);
    (2893, 2893); (2901, 2902); (2914, 2915); (2946, 2946); (3008, 3008); (3021, 3021);
    (3072, 3072); (3076, 3076); (3132, 3132); (3134, 3136); (3142, 3144); (3146, 3149);
    (3157, 3158); (3170, 3171); (3201, 3201); (3260, 3260); (3263, 3263); (3270, 3270);
    (3276, 3277); (3298, 3299); (3328, 3329); (3387, 3388); (3393, 3396); (3405, 3405);
    (3426, 3427); (3457, 3457); (3530, 3530); (3538, 3540); (3542, 3542); (3633, 3633);
    (3636, 3642); (3654, 3662); (3761, 3761); (3764, 3772); (3782, 3782); (3784, 3789);
    (3864, 3865); (3893, 3893); (3895, 3895); (3897, 3897); (3953, 3966); (3968, 3972);
    (3974, 3975); (3981, 3991); (3993, 4028); (4038, 4038); (4141, 4144); (4146, 4151);
    (4153, 4154); (4157, 4158); (4184, 4185); (4190, 4192); (4209, 4212); (4226, 4226);
    (4229, 4230); (4237, 4237); (4253, 4253); (4348, 4348); (4957, 4959); (5906, 5908);
    (5938, 5939); (5970, 5971); (6002, 6003); (6068, 6069); (6071, 6077); (6086, 6086);
    (6089, 6099); (6103, 6103); (6109, 6109); (6155, 6159); (6211, 6211); (6277, 6278);
    (6313, 6313); (6432, 6434); (6439, 6440); (6450, 6450); (6457, 6459); (6679, 6680);
    (6683, 6683); (6742, 6742); (6744, 6750); (6752, 6752); (6754, 6754); (6757, 6764);
    (6771, 6780); (6783, 6783); (6823, 6823); (6832, 6862); (6912, 6915); (6964, 6964);
    (6966, 6970); (6972, 6972); (6978, 6978); (7019, 7027); (7040, 7041); (7074, 7077);
    (7080, 7081); (7083, 7085); (7142, 7142); (7144, 7145); (7149, 7149); (7151, 7153);
    (7212, 7219); (7222, 7223); (7288, 7293); (7376, 7378); (7380, 7392); (7394, 7400);
    (7405, 7405); (7412, 7412); (7416, 7417); (7468, 7530); (7544, 7544); (7579, 7679);
    (8125, 8125); (8127, 8129); (8141, 8143); (8157, 8159); (8173, 8175); (8189, 8190);
    (8203, 8207); (8216, 8217); (8228, 8228); (8231, 8231); (8234, 8238); (8288, 8292);
    (8294, 8303); (8305, 8305); (8319, 8319); (8336, 8348); (8400, 8432); (11388, 11389);
    (11503, 11505); (11631, 11631); (11647, 11647); (11744, 11775); (11823, 11823); (12293, 12293);
    (12330, 12333); (12337, 12341); (12347, 12347); (12441, 12446); (12540, 12542); (40981, 40981);
    (42232, 42237); (42508, 42508); (42607, 42610); (42612, 42621); (42623, 42623); (42652, 42655);
    (42736, 42737); (42752, 42785); (42864, 42864); (42888, 42890); (42994, 42996); (43000, 43001);
    (43010, 43010); (43014, 43014); (43019, 43019); (43045, 43046); (43052, 43052); (43204, 43205);
    (43232, 43249); (43263, 43263); (43302, 43309); (43335, 43345); (43392, 43394); (43443, 43443);
    (43446, 43449); (43452, 43453); (43471, 43471); (43493, 43494); (43561, 43566); (43569, 43570);
    (43573, 43574); (43587, 43587); (43596, 43596); (43632, 43632); (43644, 43644); (43696, 43696);
    (43698, 43700); (43703, 43704); (43710, 43711); (43713, 43713); (43741, 43741); (43756, 43757);
    (43763, 43764); (43766, 43766); (43867, 43871); (43881, 43883); (44005, 44005); (44008, 44008);
    (44013, 44013); (64286, 64286); (64434, 64450); (65024, 65039); (65043, 65043); (65056, 65071);
    (65106, 65106); (65109, 65109); (65279, 65279); (65287, 65287); (65294, 65294); (65306, 65306);
    (65342, 65342); (65344, 65344); (65392, 65392); (65438, 65439); (65507, 65507); (65529, 65531);
    (66045, 66045); (66272, 66272); (66422, 66426); (67456, 67461); (67463, 67504); (67506, 67514);
    (68097, 68099); (68101, 68102); (68108, 68111); (68152, 68154); (68159, 68159); (68325, 68326);
    (68900, 68903); (69291, 69292); (69446, 69456); (69506, 69509); (69633, 69633); (69688, 69702);
    (69744, 69744); (69747, 69748); (69759, 69761); (69811, 69814); (69817, 69818); (69821, 69821);
    (69826, 69826); (69837, 69837); (69888, 69890); (69927, 69931); (69933, 69940); (70003, 70003);
    (70016, 70017); (70070, 70078); (70089, 70092); (70095, 70095); (70191, 70193); (70196, 70196);
    (70198, 70199); (70206, 70206); (70367, 70367); (70371, 70378); (70400, 70401); (70459, 70460);
    (70464, 70464); (70502, 70508); (70512, 70516); (70712, 70719); (70722, 70724); (70726, 70726);
    (70750, 70750); (70835, 70840); (70842, 70842); (70847, 70848); (70850, 70851); (71090, 71093);
    (71100, 71101); (71103, 71104); (71132, 71133); (71219, 71226); (71229, 71229); (71231, 71232);
    (71339, 71339); (71341, 71341); (71344, 71349); (71351, 71351); (71453, 71455); (71458, 71461);
    (71463, 71467); (71727, 71735); (71737, 71738); (71995, 71996); (71998, 71998); (72003, 72003);
    (72148, 72151); (72154, 72155); (72160, 72160); (72193, 72202); (72243, 72248); (72251, 72254);
    (72263, 72263); (72273, 72278); (72281, 72283); (72330, 72342); (72344, 72345); (72752, 72758);
    (72760, 72765); (72767, 72767); (72850, 72871); (72874, 72880); (72882, 72883); (72885, 72886);
    (73009, 73014); (73018, 73018); (73020, 73021); (73023, 73029); (73031, 73031); (73104, 73105);
    (73109, 73109); (73111, 73111); (73459, 73460); (78896, 78904); (92912, 92916); (92976, 92982);
    (92992, 92995); (94031, 94031); (94095, 94111); (94176, 94177); (94179, 94180); (110576, 110579);
    (110581, 110587); (110589, 110590); (113821, 113822); (113824, 113827); (118528, 118573); (118576, 118598);
    (119143, 119145); (119155, 119170); (119173, 119179); (119210, 119213); (119362, 119364); (121344, 121398);
    (121403, 121452); (121461, 121461); (121476, 121476); (121499, 121503); (121505, 121519); (122880, 122886);
    (122888, 122904); (122907, 122913); (122915, 122916); (122918, 122922); (123184, 123197); (123566, 123566);
    (123628, 123631); (125136, 125142); (125252, 125259); (127995, 127999); (917505, 917505); (917536, 917631);
    (917760, 917999) ].

Definition in_ranges (c : Z) (ranges : list (Z * Z)) : bool :=
  existsb (fun r => (fst r <=? c) && (c <=? snd r)) ranges.

Definition lowercase (c : Z) : Z :=
  match
    List.find (fun '(first, last, step, _) =>
                 (first <=? c) && (c <=? last) && ((c - first) mod step =? 0))
              Lowercase_Mapping
  with
  | Some (_, _, _, delta) => c + delta
  | None => c
  end.

(** A [string] stands for the JavaScript string of which it is the
    UTF-8 encoding.  An item of it is a code point, or a byte that is
    part of no encoded code point and stands for nothing. *)
Inductive Item : Type :=
| point (c : Z)
| stray (b : ascii).

Definition code (b : ascii) : Z := Z.of_nat (nat_of_ascii b).
Definition byte (n : Z) : ascii := ascii_of_nat (Z.to_nat n).

(** Reads [k] continuation bytes into [acc]. *)
Fixpoint continuation (k : nat) (s : string) (acc : Z) : option Z :=
  match k with
  | O => Some acc
  | S k' =>
      match s with
      | String b s' =>
          let n := code b in
          if (128 <=? n) && (n <=? 191)
          then continuation k' s' (acc * 64 + (n - 128)) else None
      | EmptyString => None
      end
  end.

(** The item that begins with the byte [b0], followed by [s], and the
    number of bytes of [s] that belong to it. *)
Definition first_item (b0 : ascii) (s : string) : Item * nat :=
  let n0 := code b0 in
  if n0 <? 128 then (point n0, 0%nat)
  else if (194 <=? n0) && (n0 <=? 223) then
    match continuation 1 s (n0 - 192) with
    | Some c => (point c, 1%nat)
    | None => (stray b0, 0%nat)
    end
  else if (224 <=? n0) && (n0 <=? 239) then
    match continuation 2 s (n0 - 224) with
    | Some c =>
        if (2048 <=? c) && negb ((55296 <=? c) && (c <=? 57343))
        then (point c, 2%nat) else (stray b0, 0%nat)
    | None => (stray b0, 0%nat)
    end
  else if (240 <=? n0) && (n0 <=? 244) then
    match continuation 3 s (n0 - 240) with
    | Some c =>
        if (65536 <=? c) && (c <=? 1114111)
        then (point c, 3%nat) else (stray b0, 0%nat)
    | None => (stray b0, 0%nat)
    end
  else (stray b0, 0%nat).

Fixpoint decode_from (skip : nat) (s : string) : list Item :=
  match s with
  | EmptyString => []
  | String b s' =>
      match skip with
      | S k => decode_from k s'
      | O => let '(u, n) := first_item b s' in u :: decode_from n s'
      end
  end.

Definition decode (s : string) : list Item := decode_from 0 s.

Definition encode_item (u : Item) : string :=
  match u with
  | stray b => String b EmptyString
  | point c =>
      if c <? 128 then String (byte c) EmptyString
      else if c <? 2048 then
        String (byte (192 + c / 64)) (String (byte (128 + c mod 64)) EmptyString)
      else if c <? 65536 then
        String (byte (224 + c / 4096))
          (String (byte (128 + (c / 64) mod 64))
             (String (byte (128 + c mod 64)) EmptyString))
      else
        String (byte (240 + c / 262144))
          (String (byte (128 + (c / 4096) mod 64))
             (String (byte (128 + (c / 64) mod 64))
                (String (byte (128 + c mod 64)) EmptyString)))
  end.

Definition encode (l : list Item) : string :=
  fold_right (fun u acc => encode_item u +:+ acc) EmptyString l.

Definition cased (u : Item) : bool :=
  match u with point c => in_ranges c Cased | stray _ => false end.

Definition case_ignorable (u : Item) : bool :=
  match u with point c => in_ranges c Case_Ignorable | stray _ => false end.

(** Past the case-ignorable items at the front of [l], the next item
    is a cased letter. *)
Fixpoint cased_next (l : list Item) : bool :=
  match l with
  | [] => false
  | u :: rest => if case_ignorable u then cased_next rest else cased u
  end.

(** The condition [Final_Sigma]: a cased letter comes before, with
    only case-ignorable items in between, and no cased letter comes
    after in the same way.  [before] has the nearest item first. *)
Definition Final_Sigma (before after : list Item) : bool :=
  cased_next before && negb (cased_next after).

Definition lower_item (before : list Item) (u : Item) (after : list Item)
  : list Item :=
  match u with
  | stray b => [stray b]
  | point c =>
      if c =? 931 then [point (if Final_Sigma before after then 962 else 963)]
      else if c =? 304 then [point 105; point 775]
      else [point (lowercase c)]
  end.

Fixpoint lower_from (before : list Item) (l : list Item) : list Item :=
  match l with
  | [] => []
  | u :: rest => lower_item before u rest ++ lower_from (u :: before) rest
  end.

(** The operation [toLowercase] of the default case conversion. *)
Definition toLowercase (l : list Item) : list Item := lower_from [] l.

End Unicode.

(** ** JavaScript strings

    A [string] stands for the JavaScript string of which it is the
    UTF-8 encoding: a prefix, an occurrence or an equality of two
    strings is one of their encodings. *)

Module JSString.

(** [String.prototype.toLowerCase] *)
Definition toLowerCase (s : string) : string :=
  Unicode.encode (Unicode.toLowercase (Unicode.decode s)).

(** [startsWith]: [p] is a prefix of [s]. *)
Fixpoint startsWith (s p : string) {struct p} : bool :=
  match p, s with
  | EmptyString, _ => true
  | String _ _, EmptyString => false
  | String a p', String b s' => if Ascii.eqb a b then startsWith s' p' else false
  end.

(** [String.prototype.includes]: some position of [s] starts with [sub]. *)
Fixpoint includes (s sub : string) : bool :=
  startsWith s sub ||
  match s with
  | EmptyString => false
  | String _ s' => includes s' sub
  end.

(** Truthiness of a string: only the empty string is falsy. *)
Definition truthy (s : string) : bool :=
  match s with EmptyString => false | String _ _ => true end.

(** A string of ASCII characters: every code unit is below 128. *)
Fixpoint is_ascii (s : string) : bool :=
  match s with
  | EmptyString => true
  | String c s' => (nat_of_ascii c <? 128)%nat && is_ascii s'
  end.

(** The letters of the ASCII range, each capital with its small
    letter. *)
Definition capitals : string := "ABCDEFGHIJKLMNOPQRSTUVWXYZ".
Definition smalls : string := "abcdefghijklmnopqrstuvwxyz".

Definition letter_pairs : list (ascii * ascii) :=
  combine (list_ascii_of_string capitals) (list_ascii_of_string smalls).

(** Two characters that are equal, or the capital and the small form of
    one letter. *)
Definition same_letter (a b : ascii) : Prop :=
  a = b \/ In (a, b) letter_pairs \/ In (b, a) letter_pairs.

(** Two strings of equal length whose characters agree up to letter
    case. *)
Fixpoint eq_ignore_case (s t : string) : Prop :=
  match s, t with
  | EmptyString, EmptyString => True
  | String a s', String b t' => same_letter a b /\ eq_ignore_case s' t'
  | _, _ => False
  end.

(** [s] has an occurrence of [sub]. *)
Definition occurs (sub s : string) : Prop :=
  exists pre suf, s = pre +:+ sub +:+ suf.

(** [s] has an occurrence of [sub] up to letter case. *)
Definition occurs_ignore_case (sub s : string) : Prop :=
  exists pre mid suf, s = pre +:+ mid +:+ suf /\ eq_ignore_case mid sub.

End JSString.

(** ** The case fold of the ASCII range

    What the proofs compare the conversion with on ASCII text: the
    capital letters move to the small ones, every other byte is kept. *)

Module AsciiCase.

Definition fold (c : ascii) : ascii :=
  let n := nat_of_ascii c in
  if ((65 <=? n)%nat && (n <=? 90)%nat)%bool then ascii_of_nat (n + 32) else c.

Fixpoint fold_string (s : string) : string :=
  match s with
  | EmptyString => EmptyString
  | String c s' => String (fold c) (fold_string s')
  end.

(** The test of [JSString.same_letter]. *)
Definition same_letterb (a b : ascii) : bool :=
  Ascii.eqb a b
  || existsb (fun p => Ascii.eqb (fst p) a && Ascii.eqb (snd p) b)
             JSString.letter_pairs
  || existsb (fun p => Ascii.eqb (fst p) b && Ascii.eqb (snd p) a)
             JSString.letter_pairs.

Definition all_bytes : list ascii := List.map ascii_of_nat (seq 0 256).

(** What is checked of each byte below 128: the conversion of the one
    character is the folded character. *)
Definition converts_to_fold (b : ascii) : bool :=
  if (nat_of_ascii b <? 128)%nat then
    negb (Unicode.code b =? 931)
    && String.eqb
         (Unicode.encode (Unicode.lower_item [] (Unicode.point (Unicode.code b)) []))
         (String (fold b) EmptyString)
  else true.

End AsciiCase.

(** ** JavaScript arrays *)

Module JSArray.

Section Slice.
Context {A : Type}.

(** The relative index of [Array.prototype.slice]: a negative index
    counts from the end, and the result is clamped to [0, len]. *)
Definition relative_index (len i : Z) : Z :=
  if i <? 0 then Z.max (len + i) 0 else Z.min i len.

(** [arr.slice(start, end)]. *)
Definition slice (arr : list A) (start stop : Z) : list A :=
  let len := Z.of_nat (length arr) in
  let k := relative_index len start in
  let final := relative_index len stop in
  let count := Z.max (final - k) 0 in
  take (Z.to_nat count) (drop (Z.to_nat k) arr).

(** [arr.find(pred)]: the first element that satisfies [pred], or
    [undefined] ([None]). *)
Fixpoint find (pred : A -> bool) (arr : list A) : option A :=
  match arr with
  | [] => None
  | x :: rest => if pred x then Some x else find pred rest
  end.

End Slice.

End JSArray.

(** ** The records of [types/business.ts] *)

(** [status: 'running' | 'stopped' | 'error' | 'pending'] *)
Inductive ClusterStatus : Type := running | stopped | error | pending.

(** The string a status is at run time. *)
Definition status_string (s : ClusterStatus) : string :=
  match s with
  | running => "running"
  | stopped => "stopped"
  | error => "error"
  | pending => "pending"
  end.

Module ClusterInfo.
Record t : Type := mk {
  id : string;
  name : string;
  version : string;
  status : ClusterStatus;
  nodeCount : Z;
  podCount : Z;
  namespace : string;
  apiServer : string;
  createdAt : string;
  cpuUsage : float;
  memoryUsage : float;
  diskUsage : float;
  labels : gmap string string;
  description : string
}.
End ClusterInfo.

Module NodeInfo.
Record t : Type := mk {
  name : string;
  status : string;
  role : string;
  ip : string;
  os : string;
  kubeletVersion : string;
  cpu : string;
  memory : string
}.
End NodeInfo.

Module PodInfo.
Record t : Type := mk {
  name : string;
  namespace : string;
  status : string;
  restarts : Z;
  age : string;
  node : string;
  ip : string
}.
End PodInfo.

(** [type: 'Normal' | 'Warning'] *)
Inductive EventType : Type := Normal | Warning.

Module EventInfo.
Record t : Type := mk {
  type : EventType;
  reason : string;
  message : string;
  timestamp : string
}.
End EventInfo.

(** ** What a handler does to the page

    A handler is a tree of the calls it makes into Element Plus, the
    router and the timer API.  [ElMessageBox.confirm] returns a promise
    the handler awaits: the tree branches on how the promise settles.
    [C] names the callbacks a component hands to [setTimeout]. *)

Module UI.

Inductive MessageType : Type := success | warning | info | error.

(** How an awaited promise settles. *)
Inductive Settled : Type := resolved | rejected.

Inductive Prog (C A : Type) : Type :=
| Ret (a : A)
| ElMessage (type : MessageType) (message : string) (k : Prog C A)
| ElMessageBox_confirm (message title : string) (k : Settled -> Prog C A)
| router_push (path : string) (k : Prog C A)
| setTimeout (callback : C) (ms : Z) (k : Prog C A).

Arguments Ret {C A} a.
Arguments ElMessage {C A} type message k.
Arguments ElMessageBox_confirm {C A} message title k.
Arguments router_push {C A} path k.
Arguments setTimeout {C A} callback ms k.

Fixpoint bind {C A B} (p : Prog C A) (f : A -> Prog C B) : Prog C B :=
  match p with
  | Ret a => f a
  | ElMessage t m k => ElMessage t m (bind k f)
  | ElMessageBox_confirm m t k => ElMessageBox_confirm m t (fun s => bind (k s) f)
  | router_push path k => router_push path (bind k f)
  | setTimeout cb ms k => setTimeout cb ms (bind k f)
  end.

(** What an observer of the page sees. *)
Inductive Event (C : Type) : Type :=
| Message (type : MessageType) (message : string)
| Dialog (message title : string) (answer : option Settled)
| Push (path : string)
| Timer (callback : C) (ms : Z).

Arguments Message {C} type message.
Arguments Dialog {C} message title answer.
Arguments Push {C} path.
Arguments Timer {C} callback ms.

(** Runs a handler against the answers the user gives to the dialogs it
    opens, in order.  A dialog that is never answered leaves the
    handler suspended: there is no result. *)
Fixpoint run {C A} (p : Prog C A) (user : list Settled)
  : option A * list (Event C) :=
  match p with
  | Ret a => (Some a, [])
  | ElMessage t m k =>
      let '(r, tr) := run k user in (r, Message t m :: tr)
  | ElMessageBox_confirm m t k =>
      match user with
      | [] => (None, [Dialog m t None])
      | ans :: user' =>
          let '(r, tr) := run (k ans) user' in (r, Dialog m t (Some ans) :: tr)
      end
  | router_push path k =>
      let '(r, tr) := run k user in (r, Push path :: tr)
  | setTimeout cb ms k =>
      let '(r, tr) := run k user in (r, Timer cb ms :: tr)
  end.

(** The single calls, as statements. *)
Definition message {C} (type : MessageType) (text : string) : Prog C unit :=
  ElMessage type text (Ret tt).
Definition confirm {C} (text title : string) : Prog C Settled :=
  ElMessageBox_confirm text title (fun s => Ret s).
Definition push {C} (path : string) : Prog C unit :=
  router_push path (Ret tt).
Definition timeout {C} (callback : C) (ms : Z) : Prog C unit :=
  setTimeout callback ms (Ret tt).

Definition is_warning {C} (e : Event C) : bool :=
  match e with Message warning _ => true | _ => false end.

Definition is_dialog {C} (e : Event C) : bool :=
  match e with Dialog _ _ _ => true | _ => false end.

End UI.

#[global] Instance prog_ret {C} : MRet (UI.Prog C) := fun A a => UI.Ret a.
#[global] Instance prog_bind {C} : MBind (UI.Prog C) := fun A B f p => UI.bind p f.

(** ** Object literals used as lookup tables *)

Module JSObject.

(** The property names an object literal inherits from
    [Object.prototype]; each is bound to a function or an object. *)
Definition Object_prototype : list string :=
  [ "constructor"; "__defineGetter__"; "__defineSetter__"; "hasOwnProperty";
    "__lookupGetter__"; "__lookupSetter__"; "isPrototypeOf";
    "propertyIsEnumerable"; "toString"; "valueOf"; "__proto__";
    "toLocaleString" ].

(** What reading a property of a table of strings can give. *)
Inductive Value : Type :=
| undefined
| str (s : string)
| inherited (key : string).

(** [table[key]]: the own property, else the inherited one, else
    [undefined]. *)
Definition get (table : gmap string string) (key : string) : Value :=
  match table !! key with
  | Some v => str v
  | None =>
      if bool_decide (key ∈ Object_prototype) then inherited key else undefined
  end.

Definition truthy (v : Value) : bool :=
  match v with
  | undefined => false
  | str s => JSString.truthy s
  | inherited _ => true
  end.

(** [a || b] *)
Definition or (a b : Value) : Value := if truthy a then a else b.

End JSObject.

(** ** [views/cluster/list.vue] *)

Module ClusterList.

Record SearchForm : Type := mkForm {
  name : string;
  status : string
}.

(** The refs of the component, with the array the component imports
    from [mock/data]. *)
Record State : Type := mkState {
  mockClusters : list ClusterInfo.t;
  searchForm : SearchForm;
  currentPage : Z;
  pageSize : Z;
  loading : bool;
  selectedRows : list ClusterInfo.t
}.

Definition set_searchForm (f : SearchForm) (st : State) : State :=
  mkState (mockClusters st) f (currentPage st) (pageSize st) (loading st)
          (selectedRows st).
Definition set_currentPage (p : Z) (st : State) : State :=
  mkState (mockClusters st) (searchForm st) p (pageSize st) (loading st)
          (selectedRows st).
Definition set_pageSize (s : Z) (st : State) : State :=
  mkState (mockClusters st) (searchForm st) (currentPage st) s (loading st)
          (selectedRows st).
Definition set_loading (b : bool) (st : State) : State :=
  mkState (mockClusters st) (searchForm st) (currentPage st) (pageSize st) b
          (selectedRows st).
Definition set_selectedRows (sel : list ClusterInfo.t) (st : State) : State :=
  mkState (mockClusters st) (searchForm st) (currentPage st) (pageSize st)
          (loading st) sel.

(** The component as it is set up. *)
Definition setup (clusters : list ClusterInfo.t) : State :=
  mkState clusters (mkForm EmptyString EmptyString) 1 10 false [].

(** *** Computed values *)

Definition name_matches (form : SearchForm) (item : ClusterInfo.t) : bool :=
  JSString.includes (JSString.toLowerCase (ClusterInfo.name item))
                    (JSString.toLowerCase (name form)).

Definition status_matches (form : SearchForm) (item : ClusterInfo.t) : bool :=
  String.eqb (status_string (ClusterInfo.status item)) (status form).

Definition filteredData (st : State) : list ClusterInfo.t :=
  let form := searchForm st in
  let data := mockClusters st in
  let data :=
    if JSString.truthy (name form)
    then List.filter (name_matches form) data else data in
  let data :=
    if JSString.truthy (status form)
    then List.filter (status_matches form) data else data in
  data.

Definition total (st : State) : Z := Z.of_nat (length (filteredData st)).

Definition tableData (st : State) : list ClusterInfo.t :=
  let start := (currentPage st - 1) * pageSize st in
  JSArray.slice (filteredData st) start (start + pageSize st).

Definition getStatusType_map : gmap string string :=
  {[ "running" := "success"; "stopped" := "info";
     "error" := "danger"; "pending" := "warning" ]}.

Definition getStatusType (status : string) : JSObject.Value :=
  JSObject.or (JSObject.get getStatusType_map status) (JSObject.str "info").

Definition getStatusLabel_map : gmap string string :=
  {[ "running" := "运行中"; "stopped" := "已停止";
     "error" := "错误"; "pending" := "等待中" ]}.

Definition getStatusLabel (status : string) : JSObject.Value :=
  JSObject.or (JSObject.get getStatusLabel_map status) (JSObject.str status).

(** *** The bindings of the template *)

(** [v-model="searchForm.name"] on the input. *)
Definition input_name (v : string) (st : State) : State :=
  set_searchForm (mkForm v (status (searchForm st))) st.

(** [v-model="searchForm.status"] on the select. *)
Definition select_status (v : string) (st : State) : State :=
  set_searchForm (mkForm (name (searchForm st)) v) st.

(** [v-model:current-page] and [v-model:page-size] on the pagination. *)
Definition update_currentPage (p : Z) (st : State) : State := set_currentPage p st.
Definition update_pageSize (s : Z) (st : State) : State := set_pageSize s st.

(** *** Handlers *)

(** The arrow functions given to [setTimeout]. *)
Inductive Callback : Type :=
| search_done      (* [() => { loading.value = false }] *)
| refresh_done.    (* [() => { loading.value = false; ElMessage.success(..) }] *)

Definition Handler : Type := UI.Prog Callback State.

Definition handleSelectionChange (selection : list ClusterInfo.t) (st : State)
  : State :=
  set_selectedRows selection st.

Definition handleSearch (st : State) : Handler :=
  let st := set_currentPage 1 st in
  let st := set_loading true st in
  UI.timeout search_done 300;;
  mret st.

Definition handleReset (st : State) : Handler :=
  let st := set_searchForm (mkForm EmptyString EmptyString) st in
  let st := set_currentPage 1 st in
  mret st.

Definition handleRefresh (st : State) : Handler :=
  let st := set_loading true st in
  UI.timeout refresh_done 300;;
  mret st.

(** The body of a callback, run when its timer fires. *)
Definition fire (cb : Callback) (st : State) : Handler :=
  match cb with
  | search_done => mret (set_loading false st)
  | refresh_done =>
      let st := set_loading false st in
      UI.message UI.success "数据已刷新";;
      mret st
  end.

Definition handleView (row : ClusterInfo.t) (st : State) : Handler :=
  UI.push ("/cluster/detail/" +:+ ClusterInfo.id row);;
  mret st.

Definition quote : string := String "034"%char EmptyString.

Definition handleDelete (row : ClusterInfo.t) (st : State) : Handler :=
  answer ← UI.confirm
    ("确定要删除集群 " +:+ quote +:+ ClusterInfo.name row +:+ quote
     +:+ " 吗？此操作不可恢复。")
    "删除确认";
  match answer with
  | UI.resolved => UI.message UI.success "删除成功（模拟）";; mret st
  | UI.rejected => mret st
  end.

Definition handleBatchDelete (st : State) : Handler :=
  if (length (selectedRows st) =? 0)%nat then
    UI.message UI.warning "请选择要删除的数据";;
    mret st
  else
    answer ← UI.confirm
      ("确定要删除选中的 " +:+ pretty (length (selectedRows st))
       +:+ " 个集群吗？")
      "批量删除确认";
    match answer with
    | UI.resolved => UI.message UI.success "批量删除成功（模拟）";; mret st
    | UI.rejected => mret st
    end.

Definition handleCreate (st : State) : Handler :=
  UI.message UI.info "创建集群功能（模拟）";;
  mret st.

(** [:disabled="selectedRows.length === 0"] on the batch button. *)
Definition batch_disabled (st : State) : bool :=
  (length (selectedRows st) =? 0)%nat.

End ClusterList.

(** ** The browser and the chart library, as the dashboard sees them *)

Module Browser.

(** The table of interval timers: identifiers are positive numbers
    handed out in order, each live timer has its period. *)
Record Timers : Type := mkTimers {
  next_id : positive;
  intervals : gmap positive Z
}.

Definition no_timers : Timers := mkTimers 1 ∅.

(** [setInterval(callback, ms)] *)
Definition setInterval (ms : Z) (t : Timers) : positive * Timers :=
  (next_id t, mkTimers (next_id t + 1) (<[next_id t := ms]> (intervals t))).

(** [clearInterval(id)] *)
Definition clearInterval (id : positive) (t : Timers) : Timers :=
  mkTimers (next_id t) (delete id (intervals t)).

(** How many interval timers tick. *)
Definition active (t : Timers) : nat := size (intervals t).

(** A chart instance of the chart library. *)
Definition Chart : Type := positive.

(** How a call ends. *)
Inductive Outcome (A : Type) : Type :=
| returned (a : A)
| thrown (e : string).
Arguments returned {A} a.
Arguments thrown {A} e.

(** What the surroundings answer while a handler runs: the draws of
    [Math.random], which elements the document has, and what the calls
    into the chart library do. *)
Record Env : Type := mkEnv {
  random : nat -> float;
  getElementById : string -> bool;
  echarts_init : string -> Outcome Chart;
  setOption : Chart -> Outcome unit
}.

End Browser.

(** ** [views/dashboard/index.vue] *)

Module Dashboard.
Import Browser.

Record Statistics : Type := mkStatistics {
  totalClusters : Z;
  runningClusters : Z;
  totalNodes : Z;
  totalPods : Z;
  cpuUsage : float;
  memoryUsage : float;
  diskUsage : float;
  networkTraffic : float
}.

(** The refs and the module-level variables of the component, with the
    timer table of the window. *)
Record State : Type := mkState {
  loading : bool;
  timeRange : string;
  autoRefresh : bool;
  statistics : Statistics;
  cpuChart : option Chart;
  memoryChart : option Chart;
  podChart : option Chart;
  clusterChart : option Chart;
  refreshTimer : option positive;
  timers : Timers
}.

Definition set_loading (b : bool) (st : State) : State :=
  mkState b (timeRange st) (autoRefresh st) (statistics st) (cpuChart st)
          (memoryChart st) (podChart st) (clusterChart st) (refreshTimer st)
          (timers st).
Definition set_autoRefresh (b : bool) (st : State) : State :=
  mkState (loading st) (timeRange st) b (statistics st) (cpuChart st)
          (memoryChart st) (podChart st) (clusterChart st) (refreshTimer st)
          (timers st).
Definition set_statistics (s : Statistics) (st : State) : State :=
  mkState (loading st) (timeRange st) (autoRefresh st) s (cpuChart st)
          (memoryChart st) (podChart st) (clusterChart st) (refreshTimer st)
          (timers st).
Definition set_cpuChart (c : option Chart) (st : State) : State :=
  mkState (loading st) (timeRange st) (autoRefresh st) (statistics st) c
          (memoryChart st) (podChart st) (clusterChart st) (refreshTimer st)
          (timers st).
Definition set_memoryChart (c : option Chart) (st : State) : State :=
  mkState (loading st) (timeRange st) (autoRefresh st) (statistics st)
          (cpuChart st) c (podChart st) (clusterChart st) (refreshTimer st)
          (timers st).
Definition set_podChart (c : option Chart) (st : State) : State :=
  mkState (loading st) (timeRange st) (autoRefresh st) (statistics st)
          (cpuChart st) (memoryChart st) c (clusterChart st) (refreshTimer st)
          (timers st).
Definition set_clusterChart (c : option Chart) (st : State) : State :=
  mkState (loading st) (timeRange st) (autoRefresh st) (statistics st)
          (cpuChart st) (memoryChart st) (podChart st) c (refreshTimer st)
          (timers st).
Definition set_refreshTimer (r : option positive) (t : Timers) (st : State)
  : State :=
  mkState (loading st) (timeRange st) (autoRefresh st) (statistics st)
          (cpuChart st) (memoryChart st) (podChart st) (clusterChart st) r t.

Definition sum (f : ClusterInfo.t -> Z) (l : list ClusterInfo.t) : Z :=
  fold_left (fun acc c => acc + f c) l 0.

(** The component as it is set up over the imported collection. *)
Definition setup (mockClusters : list ClusterInfo.t) : State :=
  let running_ones :=
    List.filter (fun c => String.eqb (status_string (ClusterInfo.status c))
                                     "running") mockClusters in
  mkState false "1h" false
    (mkStatistics (Z.of_nat (length mockClusters))
                  (Z.of_nat (length running_ones))
                  (sum ClusterInfo.nodeCount mockClusters)
                  (sum ClusterInfo.podCount mockClusters)
                  68.5%float 72.3%float 45.8%float 1024%float)
    None None None None None no_timers.

(** *** Statements that can throw *)

Definition M (A : Type) : Type := State -> Outcome A * State.

#[global] Instance M_ret : MRet M := fun A a st => (returned a, st).
#[global] Instance M_bind : MBind M := fun A B f m st =>
  match m st with
  | (returned a, st') => f a st'
  | (thrown e, st') => (thrown e, st')
  end.

Definition modify (f : State -> State) : M unit := fun st => (returned tt, f st).
Definition call {A} (o : Outcome A) : M A := fun st => (o, st).

(** [try { body } finally { cleanup }] *)
Definition try_finally {A} (body : M A) (cleanup : M unit) : M A := fun st =>
  let '(r, st1) := body st in
  match cleanup st1 with
  | (returned _, st2) => (r, st2)
  | (thrown e, st2) => (thrown e, st2)
  end.

(** One [init...Chart]: nothing when the target is not in the
    document, else the instance is stored and then configured. *)
Definition initChart (env : Env) (dom : string)
    (store : option Chart -> State -> State) : M unit :=
  if negb (getElementById env dom) then mret tt
  else
    chart ← call (echarts_init env dom);
    modify (store (Some chart));;
    call (setOption env chart).

Definition initCpuChart (env : Env) : M unit := initChart env "cpu-chart" set_cpuChart.
Definition initMemoryChart (env : Env) : M unit :=
  initChart env "memory-chart" set_memoryChart.
Definition initPodChart (env : Env) : M unit := initChart env "pod-chart" set_podChart.
Definition initClusterChart (env : Env) : M unit :=
  initChart env "cluster-chart" set_clusterChart.

Definition initCharts (env : Env) : M unit :=
  initCpuChart env;;
  initMemoryChart env;;
  initPodChart env;;
  initClusterChart env.

(** *** [refreshData]

    The function runs up to its [await], is suspended until the 400 ms
    timer resolves the promise, and resumes inside the [try]. *)

Definition refreshData_start (st : State) : State := set_loading true st.

Definition refreshed_statistics (env : Env) (s : Statistics) : Statistics :=
  mkStatistics (totalClusters s) (runningClusters s) (totalNodes s) (totalPods s)
               (random env 0 * 30 + 50)%float
               (random env 1 * 25 + 60)%float
               (random env 2 * 20 + 35)%float
               (random env 3 * 500 + 800)%float.

Definition refreshData_resume (env : Env) : M unit :=
  try_finally
    (modify (fun st => set_statistics (refreshed_statistics env (statistics st)) st);;
     initCharts env)
    (modify (set_loading false)).

(** The whole of [refreshData] when nothing else runs in between. *)
Definition refreshData (env : Env) : M unit := fun st =>
  refreshData_resume env (refreshData_start st).

(** *** The auto-refresh switch *)

Definition handleAutoRefreshChange (val : bool) (st : State) : State :=
  if val then
    let '(id, t) := setInterval 30000 (timers st) in
    set_refreshTimer (Some id) t st
  else
    match refreshTimer st with
    | Some id => set_refreshTimer None (clearInterval id (timers st)) st
    | None => st
    end.

(** [v-model="autoRefresh"] with [@change="handleAutoRefreshChange"]. *)
Definition switch_change (val : bool) (st : State) : State :=
  handleAutoRefreshChange val (set_autoRefresh val st).

(** The timer part of [onUnmounted]. *)
Definition onUnmounted_timer (st : State) : State :=
  match refreshTimer st with
  | Some id => set_refreshTimer (refreshTimer st) (clearInterval id (timers st)) st
  | None => st
  end.

(** The states after each of a series of calls of the handler. *)
Fixpoint toggles (vals : list bool) (st : State) : list State :=
  match vals with
  | [] => []
  | v :: vals' =>
      let st' := handleAutoRefreshChange v st in st' :: toggles vals' st'
  end.

(** No two calls in a row switch the refresh on. *)
Fixpoint no_double_on (vals : list bool) : bool :=
  match vals with
  | true :: ((true :: _) as rest) => false
  | _ :: rest => no_double_on rest
  | [] => true
  end.

(** The values an [el-switch] that shows [current] emits over [n]
    clicks: each click emits the negation of what it shows. *)
Fixpoint switch_clicks (n : nat) (current : bool) : list bool :=
  match n with
  | O => []
  | S n' => negb current :: switch_clicks n' (negb current)
  end.

End Dashboard.

(** ** [views/cluster/detail.vue] *)

(** What the component imports from [mock/data]. *)
Record MockData : Type := mkMockData {
  mockClusters : list ClusterInfo.t;
  mockNodes : list NodeInfo.t;
  mockPods : list PodInfo.t;
  mockEvents : list EventInfo.t
}.

Module ClusterDetail.

Record State : Type := mkState {
  route_params_id : string;
  activeTab : string;
  loading : bool
}.

Definition set_loading (b : bool) (st : State) : State :=
  mkState (route_params_id st) (activeTab st) b.

Definition setup (id : string) : State := mkState id "basic" false.

(** The resolver: [mockClusters.find(c => c.id === route.params.id)]. *)
Definition cluster (data : MockData) (st : State) : option ClusterInfo.t :=
  JSArray.find (fun c => String.eqb (ClusterInfo.id c) (route_params_id st))
               (mockClusters data).

Definition getStatusType_map : gmap string string :=
  list_to_map
    [ ("running", "success"); ("stopped", "info"); ("error", "danger");
      ("pending", "warning"); ("Running", "success"); ("Ready", "success");
      ("NotReady", "danger"); ("Pending", "warning"); ("Failed", "danger");
      ("CrashLoopBackOff", "danger"); ("Succeeded", EmptyString);
      ("master", "warning"); ("worker", EmptyString) ].

Definition getStatusType (status : string) : JSObject.Value :=
  JSObject.or (JSObject.get getStatusType_map status) (JSObject.str "info").

Definition getStatusLabel_map : gmap string string :=
  {[ "running" := "运行中"; "stopped" := "已停止";
     "error" := "错误"; "pending" := "等待中" ]}.

Definition getStatusLabel (status : string) : JSObject.Value :=
  JSObject.or (JSObject.get getStatusLabel_map status) (JSObject.str status).

(** *** Handlers *)

Inductive Callback : Type :=
| refresh_done.    (* [() => { loading.value = false; ElMessage.success(..) }] *)

Definition Handler : Type := UI.Prog Callback State.

Definition handleBack (st : State) : Handler :=
  UI.push "/cluster";;
  mret st.

Definition handleRefresh (st : State) : Handler :=
  let st := set_loading true st in
  UI.timeout refresh_done 300;;
  mret st.

Definition fire (cb : Callback) (st : State) : Handler :=
  match cb with
  | refresh_done =>
      let st := set_loading false st in
      UI.message UI.success "已刷新";;
      mret st
  end.

(** *** The template *)

(** The handlers the template binds to clicks. *)
Inductive Action : Type := back | refresh.

Definition perform (a : Action) (st : State) : Handler :=
  match a with
  | back => handleBack st
  | refresh => handleRefresh st
  end.

Record Button : Type := mkButton {
  label : string;
  onClick : Action
}.

(** A row of the nodes table: the node, the type of its status tag and
    the type of its role tag. *)
Record NodeRow : Type := mkNodeRow {
  node : NodeInfo.t;
  node_status_tag : JSObject.Value;
  node_role_tag : string
}.

(** A row of the pods table: the pod, the type of its status tag and
    whether the restart count is highlighted. *)
Record PodRow : Type := mkPodRow {
  pod : PodInfo.t;
  pod_status_tag : JSObject.Value;
  pod_restarts_highlight : bool
}.

(** An item of the event timeline: the event, the colour of its dot
    and the type of its tag. *)
Record EventItem : Type := mkEventItem {
  event : EventInfo.t;
  event_color : string;
  event_tag : string
}.

Definition node_row (n : NodeInfo.t) : NodeRow :=
  mkNodeRow n (getStatusType (NodeInfo.status n))
            (if String.eqb (NodeInfo.role n) "master" then "warning" else "info").

Definition pod_row (p : PodInfo.t) : PodRow :=
  mkPodRow p (getStatusType (PodInfo.status p)) (5 <? PodInfo.restarts p).

Definition event_item (e : EventInfo.t) : EventItem :=
  match EventInfo.type e with
  | Warning => mkEventItem e "#F56C6C" "danger"
  | Normal => mkEventItem e "#67C23A" "success"
  end.

(** The tabs of a resolved record. *)
Record Tabs : Type := mkTabs {
  basic : ClusterInfo.t;
  nodes : list NodeRow;
  pods : list PodRow;
  metrics : ClusterInfo.t;
  events : list EventItem
}.

(** What the template renders: the [el-result] of the branch
    [v-if="!cluster"], or the header and the tabs of the [v-else]. *)
Inductive Page : Type :=
| el_result (icon title sub_title : string) (extra : list Button)
| detail (title : string) (status_tag status_label : JSObject.Value)
         (header : list Button) (tabs : Tabs).

Definition render (data : MockData) (st : State) : Page :=
  match cluster data st with
  | None =>
      el_result "warning" "集群不存在" "未找到对应的集群信息"
                [mkButton "返回列表" back]
  | Some c =>
      detail (ClusterInfo.name c)
             (getStatusType (status_string (ClusterInfo.status c)))
             (getStatusLabel (status_string (ClusterInfo.status c)))
             [mkButton "返回" back; mkButton "刷新" refresh]
             (mkTabs c
                     (List.map node_row (mockNodes data))
                     (List.map pod_row (mockPods data))
                     c
                     (List.map event_item (mockEvents data)))
  end.

Definition tabs_of (p : Page) : option Tabs :=
  match p with
  | el_result _ _ _ _ => None
  | detail _ _ _ _ t => Some t
  end.

Definition is_not_found (p : Page) : bool :=
  match p with
  | el_result _ _ _ _ => true
  | detail _ _ _ _ _ => false
  end.

(** The buttons a page offers. *)
Definition buttons (p : Page) : list Button :=
  match p with
  | el_result _ _ _ extra => extra
  | detail _ _ _ header _ => header
  end.

End ClusterDetail.

(** ** [App.vue] *)

Module App.

Record MenuItem : Type := mkItem {
  index : string;
  icon : string;
  title : string
}.

Definition menuItems : list MenuItem :=
  [ mkItem "/dashboard" "Odometer" "监控面板";
    mkItem "/cluster" "Coin" "集群管理" ].

(** The computed [activeMenu], from [route.path]. *)
Definition activeMenu (route_path : string) : string :=
  if JSString.startsWith route_path "/cluster" then "/cluster" else route_path.

Definition handleMenuSelect {C S} (index : string) (st : S) : UI.Prog C S :=
  UI.push index;;
  mret st.

(** The paths a run of a handler pushes to the router, in order. *)
Definition pushed {C} (trace : list (UI.Event C)) : list string :=
  omap (fun e => match e with UI.Push path => Some path | _ => None end) trace.

End App.

(** ** The list view as a machine

    The events of the template reach the handlers one at a time; the
    callbacks given to [setTimeout] wait in a queue. Both timers of the
    component have the same delay, so they fire in the order in which
    they were registered. *)

Module ListMachine.
Import ClusterList.

Inductive Input : Type :=
| type_name (v : string)
| choose_status (v : string)
| change_page (p : Z)
| change_pageSize (s : Z)
| selection_change (selection : list ClusterInfo.t)
| click_search
| click_reset
| click_refresh
| click_view (row : ClusterInfo.t)
| click_delete (row : ClusterInfo.t) (answer : UI.Settled)
| click_batch_delete (answer : UI.Settled)
| click_create
| timer_fires.

Record Machine : Type := mkMachine {
  view : State;
  pending : list Callback;
  shown : list (UI.Event Callback)
}.

Definition boot (clusters : list ClusterInfo.t) : Machine :=
  mkMachine (setup clusters) [] [].

(** The callbacks a run of a handler registers. *)
Definition registered (trace : list (UI.Event Callback)) : list Callback :=
  omap (fun e => match e with UI.Timer cb _ => Some cb | _ => None end) trace.

(** Runs a handler to its end: the refs it leaves, the timers it
    registered, what it showed. *)
Definition deliver (h : Handler) (user : list UI.Settled) (m : Machine)
  : Machine :=
  let '(r, trace) := UI.run h user in
  mkMachine (default (view m) r) (pending m ++ registered trace)
            (shown m ++ trace).

Definition step (m : Machine) (i : Input) : Machine :=
  let st := view m in
  let write st' := mkMachine st' (pending m) (shown m) in
  match i with
  | type_name v => write (input_name v st)
  | choose_status v => write (select_status v st)
  | change_page p => write (update_currentPage p st)
  | change_pageSize s => write (update_pageSize s st)
  | selection_change sel => write (handleSelectionChange sel st)
  | click_search => deliver (handleSearch st) [] m
  | click_reset => deliver (handleReset st) [] m
  | click_refresh => deliver (handleRefresh st) [] m
  | click_view row => deliver (handleView row st) [] m
  | click_delete row answer => deliver (handleDelete row st) [answer] m
  | click_batch_delete answer => deliver (handleBatchDelete st) [answer] m
  | click_create => deliver (handleCreate st) [] m
  | timer_fires =>
      match pending m with
      | [] => m
      | cb :: rest =>
          deliver (fire cb st) [] (mkMachine st rest (shown m))
      end
  end.

Definition steps (m : Machine) (inputs : list Input) : Machine :=
  fold_left step inputs m.

Definition is_selection_change (i : Input) : bool :=
  match i with selection_change _ => true | _ => false end.

(** While the flag is up, a timer is waiting. *)
Definition loading_covered (m : Machine) : Prop :=
  loading (view m) = true -> pending m <> [].

(** Lets every pending timer fire. *)
Definition drain (m : Machine) : Machine :=
  steps m (replicate (length (pending m)) timer_fires).

End ListMachine.

(** ** Tag types *)

Module TagTables.

(** The four tag types of [el-tag] that are not empty. *)
Definition tag_types : list string := ["success"; "info"; "warning"; "danger"].

(** The keys the table of the detail view has beyond what the table of
    the list view gives. *)
Definition detail_only_keys : list string :=
  ["Running"; "Ready"; "NotReady"; "Pending"; "Failed"; "CrashLoopBackOff";
   "master"].

End TagTables.

(** ** The pages of the table *)

Module Paging.
Import ClusterList.

(** What the table shows once the pagination is moved to page [p]. *)
Definition page (st : State) (p : Z) : list ClusterInfo.t :=
  tableData (update_currentPage p st).

(** The pages 1 to [n], in order. *)
Definition pages (st : State) (n : nat) : list (list ClusterInfo.t) :=
  List.map (fun k => page st (Z.of_nat k)) (seq 1 n).

End Paging.

(** ** More of the dashboard *)

Module DashboardCharts.
Import Browser Dashboard.

(** The clusters of the bar chart of [initClusterChart]:
    [mockClusters.filter(c => c.status === 'running').slice(0, 6)]. *)
Definition topClusters (mockClusters : list ClusterInfo.t)
  : list ClusterInfo.t :=
  JSArray.slice
    (List.filter (fun c => String.eqb (status_string (ClusterInfo.status c))
                                      "running") mockClusters)
    0 6.

(** The component after a series of calls of the switch handler. *)
Definition toggled (vals : list bool) (st : State) : State :=
  fold_left (fun st v => handleAutoRefreshChange v st) vals st.

(** The switch after a series of changes. *)
Definition switch_changes (vals : list bool) (st : State) : State :=
  fold_left (fun st v => switch_change v st) vals st.

(** The four counts of the statistics. *)
Definition counts (s : Statistics) : Z * Z * Z * Z :=
  (totalClusters s, runningClusters s, totalNodes s, totalPods s).

(** What lies outside a refresh: the time range, the switch, the four
    counts, the tracked timer and the timer table. *)
Definition outside_refresh (st : State)
  : string * bool * (Z * Z * Z * Z) * option positive * Timers :=
  (timeRange st, autoRefresh st, counts (statistics st), refreshTimer st,
   timers st).

(** The four chart variables. *)
Definition charts (st : State)
  : option Chart * option Chart * option Chart * option Chart :=
  (cpuChart st, memoryChart st, podChart st, clusterChart st).

End DashboardCharts.

(** ** The disk usage analysis script: the parsing of the arguments *)

Module DiskUsageScript.

(** The shell variables the loop assigns; [None] is an unset variable. *)
Record Vars : Type := mkVars {
  REMOTE_MODE : option string;
  HOST : option string;
  USER : option string;
  PASSWORD : option string;
  PORT : option string;
  TIMEOUT : option string;
  KEY : option string
}.

(** What is left of [s] after its first ["="], if it has one. *)
Fixpoint after_first_eq (s : string) : option string :=
  match s with
  | EmptyString => None
  | String c s' => if Ascii.eqb c "="%char then Some s' else after_first_eq s'
  end.

(** ["${1#*=}"]: the shortest prefix that ends in ["="] is removed; a
    word without ["="] is kept. *)
Definition strip_to_eq (s : string) : string := default s (after_first_eq s).

(** One pass through the [case]: the variables after a branch that a
    pattern selects, [None] for the branch of the last pattern. *)
Definition case_of (arg : string) (v : Vars) : option Vars :=
  if String.eqb arg "--remote" then
    Some (mkVars (Some "1") (HOST v) (USER v) (PASSWORD v) (PORT v) (TIMEOUT v) (KEY v))
  else if JSString.startsWith arg "--host=" then
    Some (mkVars (REMOTE_MODE v) (Some (strip_to_eq arg)) (USER v) (PASSWORD v)
                 (PORT v) (TIMEOUT v) (KEY v))
  else if JSString.startsWith arg "--user=" then
    Some (mkVars (REMOTE_MODE v) (HOST v) (Some (strip_to_eq arg)) (PASSWORD v)
                 (PORT v) (TIMEOUT v) (KEY v))
  else if JSString.startsWith arg "--password=" then
    Some (mkVars (REMOTE_MODE v) (HOST v) (USER v) (Some (strip_to_eq arg))
                 (PORT v) (TIMEOUT v) (KEY v))
  else if JSString.startsWith arg "--port=" then
    Some (mkVars (REMOTE_MODE v) (HOST v) (USER v) (PASSWORD v)
                 (Some (strip_to_eq arg)) (TIMEOUT v) (KEY v))
  else if JSString.startsWith arg "--timeout=" then
    Some (mkVars (REMOTE_MODE v) (HOST v) (USER v) (PASSWORD v) (PORT v)
                 (Some (strip_to_eq arg)) (KEY v))
  else if JSString.startsWith arg "--key=" then
    Some (mkVars (REMOTE_MODE v) (HOST v) (USER v) (PASSWORD v) (PORT v)
                 (TIMEOUT v) (Some (strip_to_eq arg)))
  else None.

(** The [while] loop over the positional parameters: a word that a
    pattern selects is consumed by the [shift] after the [case]; for
    any other word the last branch, a [shift], consumes it and the [shift]
    after the [case] consumes the word that follows, if there is one. *)
Fixpoint parse (args : list string) (v : Vars) : Vars :=
  match args with
  | [] => v
  | arg :: rest =>
      match case_of arg v with
      | Some v' => parse rest v'
      | None =>
          match rest with
          | [] => v
          | _ :: rest' => parse rest' v
          end
      end
  end.

(** [[ "$REMOTE_MODE" = "1" ]] *)
Definition remote_mode (v : Vars) : bool :=
  match REMOTE_MODE v with
  | Some s => String.eqb s "1"
  | None => String.eqb EmptyString "1"
  end.

(** A word that a pattern of the [case] other than the last selects. *)
Definition known (arg : string) : bool :=
  String.eqb arg "--remote"
  || JSString.startsWith arg "--host=" || JSString.startsWith arg "--user="
  || JSString.startsWith arg "--password=" || JSString.startsWith arg "--port="
  || JSString.startsWith arg "--timeout=" || JSString.startsWith arg "--key=".

Definition unset : Vars := mkVars None None None None None None None.

End DiskUsageScript.

(** ** Sample data

    A collection of 25 clusters, 12 of them running, for the concrete
    scenarios. *)

Module Samples.

Definition status_of (i : nat) : ClusterStatus :=
  if (i <=? 12)%nat then running
  else match (i mod 3)%nat with
       | O => stopped
       | 1%nat => error
       | _ => pending
       end.

Definition cluster (i : nat) : ClusterInfo.t :=
  ClusterInfo.mk
    ("cluster-" +:+ pretty i) ("Prod-Cluster-" +:+ pretty i) "v1.28.2"
    (status_of i) 3 40 "default" "https://10.0.0.1:6443" "2024-01-15 10:30:00"
    45.5%float 62.75%float 38.5%float ∅ "sample".

Definition clusters : list ClusterInfo.t := List.map cluster (seq 1 25).


(** The list view on page [p] with page size [s], nothing typed in the
    search form, nothing selected. *)
Definition list_state (p s : Z) : ClusterList.State :=
  ClusterList.mkState clusters (ClusterList.mkForm EmptyString EmptyString)
                      p s false [].

Definition nodes : list NodeInfo.t :=
  [ NodeInfo.mk "master-01" "Ready" "master" "10.0.1.10" "Ubuntu 22.04"
                "v1.28.2" "8 cores" "32 GB";
    NodeInfo.mk "worker-01" "NotReady" "worker" "10.0.1.21" "Ubuntu 22.04"
                "v1.28.2" "16 cores" "64 GB" ].

Definition pods : list PodInfo.t :=
  [ PodInfo.mk "nginx-7c5ddbdf54-x8k2p" "default" "Running" 0 "5d"
               "worker-01" "10.244.1.15";
    PodInfo.mk "batch-job-28431-abcde" "batch" "Succeeded" 0 "1h"
               "worker-01" "10.244.1.16";
    PodInfo.mk "api-5f7d8c9b6-crash" "default" "CrashLoopBackOff" 12 "2d"
               "worker-01" "10.244.1.17" ].

Definition events : list EventInfo.t :=
  [ EventInfo.mk Normal "Scheduled" "Successfully assigned pod"
                 "2024-03-15 14:30:00";
    EventInfo.mk Warning "BackOff" "Back-off restarting failed container"
                 "2024-03-15 14:25:00" ].

Definition data : MockData := mkMockData clusters nodes pods events.

(** The list view with the first two sample clusters checked. *)
Definition two_selected : ClusterList.State :=
  ClusterList.handleSelectionChange (take 2 clusters) (list_state 1 10).

(** An environment in which the chart library throws. *)
Definition failing_env : Browser.Env :=
  Browser.mkEnv (fun _ => 0.5%float) (fun _ => true)
        (fun _ => Browser.thrown "echarts: init failed") (fun _ => Browser.returned tt).

(** An environment in which everything is mounted and works. *)
Definition working_env : Browser.Env :=
  Browser.mkEnv (fun _ => 0.5%float) (fun _ => true)
        (fun _ => Browser.returned 1%positive) (fun _ => Browser.returned tt).

End Samples.

(** ** Predicates of the statements *)

Module Statements.

(** The test a record passes to stay in [filteredData]. *)
Definition passes (form : ClusterList.SearchForm) (item : ClusterInfo.t) : bool :=
  (negb (JSString.truthy (ClusterList.name form)) || ClusterList.name_matches form item)
  && (negb (JSString.truthy (ClusterList.status form)) || ClusterList.status_matches form item).

(** The timer table holds the tracked timer and nothing else. *)
Definition tracked_only (st : Dashboard.State) : Prop :=
  Browser.intervals (Dashboard.timers st)
  = match Dashboard.refreshTimer st with
    | Some id => {[ id := 30000 ]}
    | None => ∅
    end.

(** The switch and the tracked timer agree. *)
Definition in_step (st : Dashboard.State) : Prop :=
  tracked_only st
  /\ (Dashboard.refreshTimer st = None <-> Dashboard.autoRefresh st = false).

End Statements.

(** * Properties *)

(** ** Strings *)

Module JSStringFacts.
Import JSString AsciiCase.

Example toLowerCase_mixed : toLowerCase "Prod-Cluster-1" = "prod-cluster-1".
Proof. vm_compute. reflexivity. Qed.

Example toLowerCase_beyond_ascii :
  toLowerCase "École" = "école"
  /\ toLowerCase "ΑΣ" = "ας"
  /\ toLowerCase "ΑΣΑ" = "ασα"
  /\ toLowerCase "Σ" = "σ"
  /\ toLowerCase "İ" = "i̇"
  /\ toLowerCase "集群-A" = "集群-a".
Proof. vm_compute. repeat split. Qed.

Example includes_middle :
  includes "prod-cluster-1" "cluster" = true
  /\ includes "prod-cluster-1" "clusters" = false
  /\ includes "prod-cluster-1" EmptyString = true.
Proof. repeat split. Qed.

Lemma append_nil (t : string) : EmptyString +:+ t = t.
Proof. reflexivity. Qed.

Lemma append_cons (a : ascii) (s t : string) :
  String a s +:+ t = String a (s +:+ t).
Proof. reflexivity. Qed.

Ltac norm_append := rewrite ?append_cons, ?append_nil in *.

Lemma startsWith_spec (s p : string) :
  startsWith s p = true <-> exists suf, s = p +:+ suf.
Proof.
  revert s; induction p as [|a p IH]; intros s; simpl.
  - split; [intros _; exists s; reflexivity | reflexivity].
  - destruct s as [|b s]; simpl.
    + split; [discriminate | intros [suf H]; discriminate].
    + destruct (Ascii.eqb_spec a b) as [->|Hne].
      * rewrite IH. split; intros [suf H]; exists suf; norm_append; congruence.
      * split; [discriminate | intros [suf H]; norm_append; congruence].
Qed.

Lemma includes_spec (s sub : string) :
  includes s sub = true <-> occurs sub s.
Proof.
  unfold occurs. induction s as [|c s IH]; simpl.
  - rewrite orb_false_r, startsWith_spec. split.
    + intros [suf H]. exists EmptyString, suf. exact H.
    + intros [[|a pre] [suf H]]; norm_append; [exists suf; exact H | discriminate].
  - rewrite orb_true_iff, startsWith_spec, IH. split.
    + intros [[suf H] | [pre [suf H]]].
      * exists EmptyString, suf. exact H.
      * exists (String c pre), suf. norm_append. congruence.
    + intros [[|a pre] [suf H]]; norm_append.
      * left. exists suf. exact H.
      * right. exists pre, suf. congruence.
Qed.

(** *** Every byte *)

Lemma all_bytes_complete (a : ascii) : In a all_bytes.
Proof.
  unfold all_bytes. rewrite <- (ascii_nat_embedding a).
  apply List.in_map, List.in_seq. pose proof (nat_ascii_bounded a). lia.
Qed.

Lemma for_all_bytes (P : ascii -> bool) :
  forallb P all_bytes = true -> forall a, P a = true.
Proof.
  intros H a. rewrite List.forallb_forall in H. apply H, all_bytes_complete.
Qed.

(** *** The fold of the ASCII range and letter case *)

Lemma same_letterb_spec (a b : ascii) :
  same_letterb a b = true <-> same_letter a b.
Proof.
  unfold same_letterb, same_letter.
  rewrite !orb_true_iff, !List.existsb_exists, Ascii.eqb_eq.
  split.
  - intros [[H|([x y] & Hin & Hxy)]|([x y] & Hin & Hxy)]; [now left| |];
      simpl in Hxy; apply andb_true_iff in Hxy as [H1 H2];
      apply Ascii.eqb_eq in H1, H2; subst; auto.
  - intros [H|[H|H]]; [now left; left| |].
    + left; right. exists (a, b). simpl. now rewrite !Ascii.eqb_refl.
    + right. exists (b, a). simpl. now rewrite !Ascii.eqb_refl.
Qed.

Lemma same_letterb_fold (a b : ascii) :
  same_letterb a b = Ascii.eqb (fold a) (fold b).
Proof.
  assert (H : forallb (fun a => forallb (fun b =>
                Bool.eqb (same_letterb a b) (Ascii.eqb (fold a) (fold b)))
              all_bytes) all_bytes = true) by (vm_compute; reflexivity).
  apply Bool.eqb_prop.
  exact (for_all_bytes _ (for_all_bytes _ H a) b).
Qed.

Lemma same_letter_fold (a b : ascii) : same_letter a b <-> fold a = fold b.
Proof. now rewrite <- same_letterb_spec, same_letterb_fold, Ascii.eqb_eq. Qed.

Lemma fold_string_app (a b : string) :
  fold_string (a +:+ b) = fold_string a +:+ fold_string b.
Proof.
  induction a as [|c a IH]; norm_append; simpl; norm_append;
    [reflexivity | now rewrite IH].
Qed.

(** A split of the folded string comes from a split of the string. *)
Lemma fold_string_split (s a b : string) :
  fold_string s = a +:+ b ->
  exists s1 s2, s = s1 +:+ s2 /\ fold_string s1 = a /\ fold_string s2 = b.
Proof.
  revert s; induction a as [|c a IH]; intros s H; norm_append.
  - exists EmptyString, s. auto.
  - destruct s as [|d s]; simpl in H; [discriminate|].
    injection H as Hc Hs. destruct (IH _ Hs) as (s1 & s2 & -> & <- & <-).
    exists (String d s1), s2. simpl. rewrite Hc. auto.
Qed.

Lemma eq_ignore_case_fold (s t : string) :
  eq_ignore_case s t <-> fold_string s = fold_string t.
Proof.
  revert t; induction s as [|a s IH]; intros [|b t]; simpl;
    try (split; [tauto | discriminate]); [tauto|].
  rewrite same_letter_fold, IH. split.
  - intros [-> ->]. reflexivity.
  - intros H. injection H as H1 H2. auto.
Qed.

(** On folded strings, an occurrence is an occurrence up to letter
    case. *)
Lemma includes_fold (s sub : string) :
  includes (fold_string s) (fold_string sub) = true
  <-> occurs_ignore_case sub s.
Proof.
  rewrite includes_spec. unfold occurs, occurs_ignore_case. split.
  - intros (pre & suf & H).
    apply fold_string_split in H as (s1 & r & -> & <- & H).
    apply fold_string_split in H as (mid & s3 & -> & Hm & <-).
    exists s1, mid, s3. split; [reflexivity|].
    now apply eq_ignore_case_fold.
  - intros (pre & mid & suf & -> & H).
    apply eq_ignore_case_fold in H.
    exists (fold_string pre), (fold_string suf).
    now rewrite !fold_string_app, H.
Qed.

(** *** The conversion *)

Lemma encode_app (l1 l2 : list Unicode.Item) :
  Unicode.encode (l1 ++ l2) = Unicode.encode l1 +:+ Unicode.encode l2.
Proof.
  induction l1 as [|u l1 IH]; simpl; [reflexivity|].
  rewrite IH. clear IH. generalize (Unicode.encode_item u).
  intros e. induction e as [|c e IH]; norm_append; [reflexivity|].
  now rewrite IH.
Qed.

Lemma encode_item_cons (u : Unicode.Item) :
  exists c e, Unicode.encode_item u = String c e.
Proof.
  destruct u as [c|b]; simpl; [|eauto].
  repeat match goal with
         | |- context [if ?t then _ else _] => destruct t
         end; eauto.
Qed.

Lemma encode_nil (l : list Unicode.Item) :
  Unicode.encode l = EmptyString -> l = [].
Proof.
  destruct l as [|u l]; [reflexivity|]. simpl.
  destruct (encode_item_cons u) as (c & e & ->). norm_append. discriminate.
Qed.

Lemma lower_item_cons (before : list Unicode.Item) (u : Unicode.Item)
    (after : list Unicode.Item) :
  exists v l, Unicode.lower_item before u after = v :: l.
Proof.
  destruct u as [c|b]; simpl; [|eauto].
  destruct (c =? 931); [eauto|]. destruct (c =? 304); eauto.
Qed.

Lemma lower_from_nil (before l : list Unicode.Item) :
  Unicode.lower_from before l = [] -> l = [].
Proof.
  destruct l as [|u l]; [reflexivity|]. simpl.
  destruct (lower_item_cons before u l) as (v & r & ->). discriminate.
Qed.

Lemma decode_nil (s : string) : Unicode.decode s = [] -> s = EmptyString.
Proof.
  destruct s as [|b s]; [reflexivity|]. unfold Unicode.decode. simpl.
  destruct (Unicode.first_item b s). discriminate.
Qed.

(** Only the empty string is converted to the empty string. *)
Lemma toLowerCase_empty (s : string) :
  toLowerCase s = EmptyString <-> s = EmptyString.
Proof.
  split; [|intros ->; reflexivity]. unfold toLowerCase, Unicode.toLowercase.
  intros H. now apply decode_nil, (lower_from_nil []), encode_nil.
Qed.

(** Unless it is a capital sigma, a code point is converted without a
    look at what is around it. *)
Lemma lower_item_alone (before after : list Unicode.Item) (c : Z) :
  (c =? 931) = false ->
  Unicode.lower_item before (Unicode.point c) after
  = Unicode.lower_item [] (Unicode.point c) [].
Proof. intros H. unfold Unicode.lower_item. now rewrite H. Qed.

Lemma lower_item_ascii (before after : list Unicode.Item) (b : ascii) :
  (nat_of_ascii b < 128)%nat ->
  Unicode.encode (Unicode.lower_item before (Unicode.point (Unicode.code b)) after)
  = String (fold b) EmptyString.
Proof.
  intros Hb.
  assert (H : forallb converts_to_fold all_bytes = true)
    by (vm_compute; reflexivity).
  pose proof (for_all_bytes _ H b) as Hc. unfold converts_to_fold in Hc.
  apply Nat.ltb_lt in Hb. rewrite Hb in Hc.
  apply andb_true_iff in Hc as [Hs He].
  apply negb_true_iff in Hs. apply String.eqb_eq in He.
  now rewrite lower_item_alone.
Qed.

Lemma first_item_ascii (b : ascii) (s : string) :
  (nat_of_ascii b < 128)%nat ->
  Unicode.first_item b s = (Unicode.point (Unicode.code b), 0%nat).
Proof.
  intros Hb. unfold Unicode.first_item.
  assert (H : (Unicode.code b <? 128) = true)
    by (apply Z.ltb_lt; unfold Unicode.code; lia).
  cbv zeta. now rewrite H.
Qed.

Lemma lower_from_cons (before : list Unicode.Item) (u : Unicode.Item)
    (rest : list Unicode.Item) :
  Unicode.lower_from before (u :: rest)
  = (Unicode.lower_item before u rest
     ++ Unicode.lower_from (u :: before) rest)%list.
Proof. reflexivity. Qed.

Lemma decode_cons (b : ascii) (s : string) :
  Unicode.decode (String b s)
  = let '(u, n) := Unicode.first_item b s in u :: Unicode.decode_from n s.
Proof. reflexivity. Qed.

Lemma lower_from_ascii (s : string) (before : list Unicode.Item) :
  is_ascii s = true ->
  Unicode.encode (Unicode.lower_from before (Unicode.decode s)) = fold_string s.
Proof.
  revert before; induction s as [|b s IH]; intros before H; [reflexivity|].
  simpl in H. apply andb_true_iff in H as [Hb Hs]. apply Nat.ltb_lt in Hb.
  rewrite decode_cons, (first_item_ascii b s Hb).
  change (Unicode.decode_from 0 s) with (Unicode.decode s).
  rewrite lower_from_cons, encode_app, lower_item_ascii by exact Hb.
  norm_append. simpl. now rewrite IH.
Qed.

(** On ASCII text the conversion is the fold, character by
    character. *)
Lemma toLowerCase_ascii (s : string) :
  is_ascii s = true -> toLowerCase s = fold_string s.
Proof. apply lower_from_ascii. Qed.

(** On ASCII text, the test of the name filter finds exactly the
    occurrences up to letter case. *)
Lemma includes_lower_ascii (s sub : string) :
  is_ascii s = true -> is_ascii sub = true ->
  (includes (toLowerCase s) (toLowerCase sub) = true
   <-> occurs_ignore_case sub s).
Proof.
  intros Hs Hsub. rewrite !toLowerCase_ascii by assumption. apply includes_fold.
Qed.

Lemma truthy_empty (s : string) : truthy s = false <-> s = EmptyString.
Proof. destruct s; simpl; split; congruence. Qed.

End JSStringFacts.

(** ** Arrays *)

Module JSArrayFacts.
Import JSArray.

Section Facts.
Context {A : Type}.
Implicit Types (arr : list A) (start size : Z).

Example slice_indices :
  slice [1; 2; 3; 4; 5] 1 3 = [2; 3]
  /\ slice [1; 2; 3; 4; 5] 3 10 = [4; 5]
  /\ slice [1; 2; 3; 4; 5] (-2) 5 = [4; 5]
  /\ slice [1; 2; 3; 4; 5] 7 9 = []
  /\ slice [1; 2; 3; 4; 5] 3 1 = [].
Proof. repeat split. Qed.

(** With a start and a size that are not negative, [slice] is the
    window of [size] elements that begins at [start]. *)
Lemma slice_window arr start size :
  0 <= start -> 0 <= size ->
  slice arr start (start + size)
  = take (Z.to_nat size) (drop (Z.to_nat start) arr).
Proof.
  intros Hs Hz. unfold slice, relative_index. cbv zeta.
  set (len := Z.of_nat (length arr)).
  destruct (Z.ltb_spec start 0) as [?|_]; [lia|].
  destruct (Z.ltb_spec (start + size) 0) as [?|_]; [lia|].
  assert (Hlen : Z.to_nat len = length arr) by (unfold len; lia).
  destruct (Z.le_gt_cases len start) as [Hge|Hlt].
  - rewrite (drop_ge arr (Z.to_nat start)) by lia.
    rewrite (Z.min_r start len) by lia.
    rewrite (drop_ge arr (Z.to_nat len)) by lia.
    now rewrite !take_nil.
  - rewrite (Z.min_l start len) by lia.
    destruct (Z.le_gt_cases (start + size) len) as [Hin|Hout].
    + rewrite (Z.min_l (start + size) len) by lia. f_equal. lia.
    + rewrite (Z.min_r (start + size) len) by lia.
      rewrite !take_ge; [reflexivity | | ]; rewrite length_drop; lia.
Qed.

Lemma slice_length arr start size :
  0 <= start -> 0 <= size ->
  Z.of_nat (length (slice arr start (start + size)))
  = Z.min size (Z.max 0 (Z.of_nat (length arr) - start)).
Proof.
  intros Hs Hz. rewrite slice_window by assumption.
  rewrite length_take, length_drop. lia.
Qed.

Lemma slice_lookup arr start size (i : nat) :
  0 <= start -> 0 <= size ->
  slice arr start (start + size) !! i
  = if Z.of_nat i <? size then arr !! (Z.to_nat start + i)%nat else None.
Proof.
  intros Hs Hz. rewrite slice_window by assumption.
  destruct (Z.ltb_spec (Z.of_nat i) size) as [Hlt|Hge].
  - rewrite lookup_take_lt by lia. apply lookup_drop.
  - apply lookup_take_ge. lia.
Qed.

Lemma find_None (pred : A -> bool) arr :
  find pred arr = None <-> forall x, x ∈ arr -> pred x = false.
Proof.
  induction arr as [|y arr IH]; simpl.
  - split; [intros _ x Hx; inversion Hx | reflexivity].
  - destruct (pred y) eqn:Hy.
    + split; [discriminate|]. intros H.
      specialize (H y (list_elem_of_here _ _)). congruence.
    + rewrite IH. split.
      * intros H x Hx. apply elem_of_cons in Hx as [->|Hx]; auto.
      * intros H x Hx. apply H. now apply list_elem_of_further.
Qed.

Lemma find_Some (pred : A -> bool) arr (x : A) :
  find pred arr = Some x -> x ∈ arr /\ pred x = true.
Proof.
  induction arr as [|y arr IH]; simpl; [discriminate|].
  destruct (pred y) eqn:Hy.
  - intros [= ->]. split; [apply list_elem_of_here | exact Hy].
  - intros H. destruct (IH H) as [Hin Hp].
    split; [now apply list_elem_of_further | exact Hp].
Qed.

End Facts.

End JSArrayFacts.

(** ** The list view *)

Module ClusterListFacts.
Import ClusterList Statements.

Lemma filter_filter {A} (f g : A -> bool) (l : list A) :
  List.filter g (List.filter f l) = List.filter (fun x => f x && g x) l.
Proof.
  induction l as [|x l IH]; simpl; [reflexivity|].
  destruct (f x); simpl; [destruct (g x)|]; now rewrite IH.
Qed.

Lemma filter_true {A} (l : list A) : List.filter (fun _ => true) l = l.
Proof. induction l as [|x l IH]; simpl; [reflexivity | now rewrite IH]. Qed.

(** The two optional filters are one pass with the conjunction of the
    two tests: order and multiplicity of the records are kept. *)
Lemma filteredData_filter (st : State) :
  filteredData st = List.filter (passes (searchForm st)) (mockClusters st).
Proof.
  unfold filteredData, passes. cbv zeta.
  destruct (JSString.truthy (name (searchForm st)));
    destruct (JSString.truthy (status (searchForm st))); simpl.
  - apply filter_filter.
  - apply List.filter_ext_in. intros a _. now rewrite andb_true_r.
  - reflexivity.
  - symmetry. apply filter_true.
Qed.


Lemma status_test_spec (form : SearchForm) (item : ClusterInfo.t) :
  negb (JSString.truthy (status form)) || status_matches form item = true
  <-> status form = EmptyString
      \/ status_string (ClusterInfo.status item) = status form.
Proof.
  unfold status_matches.
  rewrite orb_true_iff, negb_true_iff, JSStringFacts.truthy_empty,
    String.eqb_eq.
  reflexivity.
Qed.




(** C2. On page [p >= 1] with page size [s >= 0] the visible page is
    the window of the filtered list from index [(p-1)*s] up to, not
    including, [(p-1)*s + s]: element by element, at most [s] long,
    empty when the page lies past the end, and with 25 matching
    records and page size 10 the pages 1, 3 and 4 hold 10, 5 and 0
    records. *)
Theorem tableData_page (clusters : list ClusterInfo.t) (form : SearchForm)
    (p s : Z) (ld : bool) (sel : list ClusterInfo.t) :
  1 <= p -> 0 <= s ->
  let st := mkState clusters form p s ld sel in
  let start := (p - 1) * s in
  tableData st
    = take (Z.to_nat s) (drop (Z.to_nat start) (filteredData st))
  /\ (forall i : nat,
        tableData st !! i
        = if Z.of_nat i <? s
          then filteredData st !! (Z.to_nat start + i)%nat else None)
  /\ Z.of_nat (length (tableData st)) = Z.min s (Z.max 0 (total st - start))
  /\ Z.of_nat (length (tableData st)) <= s
  /\ (total st <= start -> tableData st = [])
  /\ (total st = 25 -> s = 10 ->
      (p = 1 -> length (tableData st) = 10%nat)
      /\ (p = 3 -> length (tableData st) = 5%nat)
      /\ (p = 4 -> length (tableData st) = 0%nat)).
Proof.
  intros Hp Hs st start.
  assert (Hstart : 0 <= start) by (unfold start; nia).
  assert (Hlen : Z.of_nat (length (tableData st))
                 = Z.min s (Z.max 0 (total st - start))).
  { unfold tableData, total. cbv zeta. simpl currentPage. simpl pageSize.
    fold start. now apply JSArrayFacts.slice_length. }
  assert (Hlookup : forall arr : list ClusterInfo.t,
             JSArray.slice arr start (start + s)
             = take (Z.to_nat s) (drop (Z.to_nat start) arr))
    by (intros arr; now apply JSArrayFacts.slice_window).
  split; [apply Hlookup|].
  split; [intros i; now apply JSArrayFacts.slice_lookup|].
  split; [exact Hlen|].
  split; [lia|].
  split; [intros Hout; apply length_zero_iff_nil; lia|].
  intros Ht ->. unfold start in Hlen. rewrite Ht in Hlen.
  split; [|split]; intros ->; lia.
Qed.

Lemma tableData_page_witness :
  1 <= 3 /\ 0 <= 10
  /\ List.map ClusterInfo.id (tableData (Samples.list_state 3 10))
     = ["cluster-21"; "cluster-22"; "cluster-23"; "cluster-24"; "cluster-25"].
Proof.
  assert (H1 : 1 <= 3) by lia. assert (H2 : 0 <= 10) by lia.
  split; [exact H1 | split; [exact H2 |]].
  destruct (tableData_page Samples.clusters (mkForm EmptyString EmptyString)
              3 10 false [] H1 H2) as [Heq _].
  unfold Samples.list_state. rewrite Heq. reflexivity.
Defined.

(** The bound on the page is needed: for page -1 the two indices are
    negative, count from the end, and the page holds records. *)
Example tableData_page_minus_one :
  List.map ClusterInfo.id (tableData (Samples.list_state (-1) 10))
  = List.map (fun i => "cluster-" +:+ pretty i) (seq 6 10).
Proof. vm_compute. reflexivity. Qed.

(** *** Page and filter *)

Lemma handleSearch_page (st : State) (user : list UI.Settled) :
  exists st', fst (UI.run (handleSearch st) user) = Some st'
              /\ currentPage st' = 1
              /\ searchForm st' = searchForm st.
Proof. eexists. split; [reflexivity|]. split; reflexivity. Qed.

Lemma handleReset_page (st : State) (user : list UI.Settled) :
  exists st', fst (UI.run (handleReset st) user) = Some st'
              /\ currentPage st' = 1
              /\ searchForm st' = mkForm EmptyString EmptyString.
Proof. eexists. split; [reflexivity|]. split; reflexivity. Qed.

Lemma input_name_page (v : string) (st : State) :
  currentPage (input_name v st) = currentPage st.
Proof. reflexivity. Qed.

Lemma select_status_page (v : string) (st : State) :
  currentPage (select_status v st) = currentPage st.
Proof. reflexivity. Qed.

(** C3. On page 3 of the 25 sample clusters with page size 5, choosing
    the status [running] in the select changes the filter (12 records
    match, three pages), leaves the current page at 3, and the visible
    page is derived from page 3 of the new filtered list: the page is
    not reset to 1. *)
Theorem select_status_on_page_3 :
  let before := Samples.list_state 3 5 in
  let after := select_status "running" before in
  searchForm after <> searchForm before
  /\ total after = 12
  /\ currentPage after = 3
  /\ List.map ClusterInfo.id (tableData after) = ["cluster-11"; "cluster-12"]
  /\ tableData after <> tableData (set_currentPage 1 after).
Proof.
  cbv zeta. split; [discriminate|].
  split; [vm_compute; reflexivity|].
  split; [reflexivity|].
  split; [vm_compute; reflexivity|].
  intros H. apply (f_equal (List.map ClusterInfo.id)) in H.
  vm_compute in H. discriminate H.
Qed.

(** *** Batch delete *)

(** C4. With an empty selection the batch delete stops at once: the
    handler is the single warning followed by its return, so whatever
    the user would answer, the run shows exactly one warning and no
    dialog, and ends in the state it started from (selection and
    collection included). *)
Theorem handleBatchDelete_empty (st : State) (user : list UI.Settled) :
  selectedRows st = [] ->
  handleBatchDelete st
    = UI.ElMessage UI.warning "请选择要删除的数据" (UI.Ret st)
  /\ UI.run (handleBatchDelete st) user
     = (Some st, [UI.Message UI.warning "请选择要删除的数据"])
  /\ length (List.filter UI.is_warning (snd (UI.run (handleBatchDelete st) user)))
     = 1%nat
  /\ List.filter UI.is_dialog (snd (UI.run (handleBatchDelete st) user)) = [].
Proof.
  intros Hsel. unfold handleBatchDelete. rewrite Hsel. simpl.
  repeat split; reflexivity.
Qed.

Lemma handleBatchDelete_empty_witness :
  selectedRows (Samples.list_state 1 10) = []
  /\ UI.run (handleBatchDelete (Samples.list_state 1 10)) [UI.resolved]
     = (Some (Samples.list_state 1 10),
        [UI.Message UI.warning "请选择要删除的数据"]).
Proof.
  split; [reflexivity|].
  exact (proj1 (proj2 (handleBatchDelete_empty (Samples.list_state 1 10)
                         [UI.resolved] eq_refl))).
Defined.

(** C5 does not hold as stated: with two rows checked and the
    dialog confirmed, the batch delete ends with the same two rows
    checked. *)
Lemma handleBatchDelete_selection_stays :
  selectedRows Samples.two_selected <> []
  /\ exists st',
       fst (UI.run (handleBatchDelete Samples.two_selected) [UI.resolved]) = Some st'
       /\ length (selectedRows st') = 2%nat
       /\ length (selectedRows st') <> 0%nat.
Proof.
  split; [discriminate|]. exists Samples.two_selected.
  split; [reflexivity|]. split; [reflexivity | discriminate].
Qed.

(** C5, amended. With a selection that is not empty and the dialog
    confirmed, the batch delete shows the dialog with the number of
    checked rows, then one success message, and ends in the state it
    started from: the selection is the one before, its count is not
    0. *)
Theorem handleBatchDelete_confirmed (st : State) (user : list UI.Settled) :
  selectedRows st <> [] ->
  UI.run (handleBatchDelete st) (UI.resolved :: user)
  = (Some st,
     [UI.Dialog ("确定要删除选中的 " +:+ pretty (length (selectedRows st))
                 +:+ " 个集群吗？")
                "批量删除确认" (Some UI.resolved);
      UI.Message UI.success "批量删除成功（模拟）"])
  /\ (forall st', fst (UI.run (handleBatchDelete st) (UI.resolved :: user))
                  = Some st' ->
                  selectedRows st' = selectedRows st
                  /\ (0 < length (selectedRows st'))%nat).
Proof.
  intros Hsel. unfold handleBatchDelete.
  destruct (selectedRows st) as [|r rows] eqn:E; [congruence|].
  simpl. split; [reflexivity|].
  intros st' [= <-]. rewrite E. split; [reflexivity | simpl; lia].
Qed.

Lemma handleBatchDelete_confirmed_witness :
  selectedRows Samples.two_selected <> []
  /\ fst (UI.run (handleBatchDelete Samples.two_selected) [UI.resolved])
     = Some Samples.two_selected.
Proof.
  assert (H : selectedRows Samples.two_selected <> []) by discriminate.
  split; [exact H|].
  exact (f_equal fst (proj1 (handleBatchDelete_confirmed Samples.two_selected [] H))).
Defined.

(** The table's event is what replaces the selection. *)
Lemma handleSelectionChange_count (sel : list ClusterInfo.t) (st : State) :
  selectedRows (handleSelectionChange sel st) = sel
  /\ (batch_disabled (handleSelectionChange sel st) = true <-> sel = []).
Proof.
  split; [reflexivity|]. unfold batch_disabled. simpl.
  rewrite Nat.eqb_eq. apply length_zero_iff_nil.
Qed.

End ClusterListFacts.

(** ** The dashboard *)

Module DashboardFacts.
Import Browser Dashboard Statements.

Lemma setup_tracked_only (clusters : list ClusterInfo.t) :
  tracked_only (setup clusters) /\ refreshTimer (setup clusters) = None.
Proof. split; reflexivity. Qed.

(** Switching off cancels the tracked timer. *)
Lemma off_tracked_only (st : State) :
  tracked_only st ->
  let st' := handleAutoRefreshChange false st in
  tracked_only st' /\ refreshTimer st' = None /\ active (timers st') = 0%nat.
Proof.
  unfold tracked_only, active. simpl.
  destruct (refreshTimer st) as [id|] eqn:E; simpl; intros H.
  - rewrite H, delete_singleton_eq.
    split; [reflexivity | split; [reflexivity | apply map_size_empty]].
  - rewrite E, H.
    split; [reflexivity | split; [reflexivity | apply map_size_empty]].
Qed.

(** Switching on while no timer is tracked starts exactly one. *)
Lemma on_tracked_only (st : State) :
  tracked_only st -> refreshTimer st = None ->
  let st' := handleAutoRefreshChange true st in
  tracked_only st' /\ active (timers st') = 1%nat.
Proof.
  unfold tracked_only, active. simpl. intros H E. rewrite E in H.
  rewrite H, insert_empty. split; [reflexivity | apply map_size_singleton].
Qed.

(** The count of ticking timers after each call follows the value
    given to the call. *)
Lemma toggles_active (vals : list bool) (st : State) :
  no_double_on vals = true ->
  tracked_only st ->
  refreshTimer st = None \/ hd false vals = false ->
  Forall2 (fun v st' => active (timers st') = if v : bool then 1%nat else 0%nat)
          vals (toggles vals st).
Proof.
  revert st; induction vals as [|v vals IH]; intros st Hnd Hinv Hfirst.
  - constructor.
  - simpl toggles. destruct v.
    + assert (Hnone : refreshTimer st = None)
        by (destruct Hfirst as [?|?]; [assumption | discriminate]).
      destruct (on_tracked_only st Hinv Hnone) as [Hinv' Hact].
      constructor; [exact Hact|].
      destruct vals as [|[|] vals']; [constructor | discriminate Hnd |].
      apply IH; [exact Hnd | exact Hinv' | right; reflexivity].
    + destruct (off_tracked_only st Hinv) as (Hinv' & Hnone & Hact).
      constructor; [exact Hact|].
      apply IH; [| exact Hinv' | left; exact Hnone].
      destruct vals; exact Hnd.
Qed.

(** The clicks of the switch never switch on twice in a row. *)
Lemma switch_clicks_no_double_on (n : nat) (current : bool) :
  no_double_on (switch_clicks n current) = true.
Proof.
  revert current; induction n as [|n IH]; intros current; [reflexivity|].
  specialize (IH (negb current)). destruct n as [|n]; simpl in *.
  - now destruct current.
  - destruct current; simpl in *; exact IH.
Qed.

(** C7 does not hold as stated: two calls in a row that switch
    the refresh on leave two timers ticking, the first one no longer
    tracked, so that switching off, or leaving the view, cancels only
    the second. *)
Lemma enable_twice_two_timers :
  let st := handleAutoRefreshChange true
              (handleAutoRefreshChange true (setup Samples.clusters)) in
  active (timers st) = 2%nat
  /\ refreshTimer st = Some 2%positive
  /\ active (timers (handleAutoRefreshChange false st)) = 1%nat
  /\ active (timers (onUnmounted_timer st)) = 1%nat.
Proof. vm_compute. repeat split. Qed.

(** C7, amended. Over every series of calls of the switch handler in
    which no two calls in a row switch the refresh on, starting from
    the set-up component, exactly one timer ticks after a call that
    switches on and none after a call that switches off; so at most
    one timer is ever active, and switching off cancels it. *)
Theorem auto_refresh_single_timer (clusters : list ClusterInfo.t)
    (vals : list bool) :
  no_double_on vals = true ->
  Forall2 (fun v st => active (timers st) = if v : bool then 1%nat else 0%nat)
          vals (toggles vals (setup clusters))
  /\ Forall (fun st => (active (timers st) <= 1)%nat)
            (toggles vals (setup clusters)).
Proof.
  intros Hnd.
  assert (H : Forall2 (fun v st => active (timers st)
                                   = if v : bool then 1%nat else 0%nat)
                      vals (toggles vals (setup clusters))).
  { apply toggles_active; [exact Hnd | reflexivity | left; reflexivity]. }
  split; [exact H|].
  clear Hnd. induction H as [|v st vals sts Hv _ IH]; constructor.
  - destruct v; lia.
  - exact IH.
Qed.

Lemma auto_refresh_single_timer_witness :
  no_double_on [true; false; false; true] = true
  /\ Forall (fun st => (active (timers st) <= 1)%nat)
            (toggles [true; false; false; true] (setup Samples.clusters)).
Proof.
  split; [reflexivity|].
  exact (proj2 (auto_refresh_single_timer Samples.clusters
                  [true; false; false; true] eq_refl)).
Defined.

End DashboardFacts.

(** ** Lookup tables of tag types *)

Module StatusTypeFacts.
Import JSObject.

(** [table[status] || 'info'] case by case. *)
Lemma or_info_cases (table : gmap string string) (status : string) :
  or (get table status) (str "info")
  = match table !! status with
    | Some v => if JSString.truthy v then str v else str "info"
    | None =>
        if bool_decide (status ∈ Object_prototype)
        then inherited status else str "info"
    end.
Proof.
  unfold or, get. destruct (table !! status) as [v|]; simpl.
  - reflexivity.
  - destruct (bool_decide (status ∈ Object_prototype)); reflexivity.
Qed.

(** Neither function gives [undefined]. *)
Lemma getStatusType_defined (status : string) :
  ClusterList.getStatusType status <> undefined
  /\ ClusterDetail.getStatusType status <> undefined.
Proof.
  unfold ClusterList.getStatusType, ClusterDetail.getStatusType.
  rewrite !or_info_cases.
  split.
  - destruct (ClusterList.getStatusType_map !! status) as [v|];
      [destruct (JSString.truthy v) | destruct (bool_decide _)]; discriminate.
  - destruct (ClusterDetail.getStatusType_map !! status) as [v|];
      [destruct (JSString.truthy v) | destruct (bool_decide _)]; discriminate.
Qed.

(** A string that is neither a key of the table nor a property of
    [Object.prototype] falls back to ['info']. *)
Lemma getStatusType_fallback (status : string) :
  status ∉ Object_prototype ->
  (ClusterList.getStatusType_map !! status = None ->
   ClusterList.getStatusType status = str "info")
  /\ (ClusterDetail.getStatusType_map !! status = None ->
      ClusterDetail.getStatusType status = str "info").
Proof.
  intros Hp. unfold ClusterList.getStatusType, ClusterDetail.getStatusType.
  rewrite !or_info_cases.
  split; intros ->; now rewrite bool_decide_eq_false_2.
Qed.

(** In the list view every key is mapped to a tag type that is not
    empty, and the function returns it: so it does on the four
    statuses a cluster can have. *)
Lemma list_getStatusType_key (status v : string) :
  ClusterList.getStatusType_map !! status = Some v ->
  ClusterList.getStatusType status = str v.
Proof.
  intros H. unfold ClusterList.getStatusType. rewrite or_info_cases, H.
  assert (Hall : map_Forall (fun _ v => JSString.truthy v = true)
                            ClusterList.getStatusType_map).
  { unfold ClusterList.getStatusType_map.
    repeat (apply map_Forall_insert_2; [reflexivity|]).
    apply map_Forall_empty. }
  now rewrite (Hall _ _ H).
Qed.

Lemma list_getStatusType_status (s : ClusterStatus) :
  ClusterList.getStatusType (status_string s)
  = str match s with
        | running => "success"
        | stopped => "info"
        | error => "danger"
        | pending => "warning"
        end.
Proof. destruct s; vm_compute; reflexivity. Qed.

(** C10. In the detail view the table maps [Succeeded] and [worker] to
    the empty tag type, which is falsy: the function returns ['info']
    for both and not the mapped type.  (And a property name of
    [Object.prototype] such as [constructor] is not a key, yet what is
    returned for it is the inherited member, not ['info'].) *)
Theorem detail_getStatusType_empty_entry :
  ClusterDetail.getStatusType_map !! "Succeeded" = Some EmptyString
  /\ ClusterDetail.getStatusType "Succeeded" = str "info"
  /\ ClusterDetail.getStatusType_map !! "worker" = Some EmptyString
  /\ ClusterDetail.getStatusType "worker" = str "info"
  /\ ClusterDetail.getStatusType_map !! "constructor" = None
  /\ ClusterDetail.getStatusType "constructor" = inherited "constructor".
Proof. vm_compute. repeat split. Qed.

End StatusTypeFacts.

(** ** The detail view *)

Module ClusterDetailFacts.
Import ClusterDetail.

Lemma cluster_None (data : MockData) (st : State) :
  cluster data st = None
  <-> forall c, c ∈ mockClusters data -> ClusterInfo.id c <> route_params_id st.
Proof.
  unfold cluster. rewrite JSArrayFacts.find_None.
  split; intros H c Hc; specialize (H c Hc).
  - now apply String.eqb_neq.
  - now apply String.eqb_neq.
Qed.

Lemma cluster_Some (data : MockData) (st : State) (c : ClusterInfo.t) :
  cluster data st = Some c ->
  c ∈ mockClusters data /\ ClusterInfo.id c = route_params_id st.
Proof.
  intros H. apply JSArrayFacts.find_Some in H as [Hin Heq].
  split; [exact Hin | now apply String.eqb_eq].
Qed.

(** C6. For an identifier that no record of the collection has, the
    resolver gives [undefined] (it is a total function, nothing is
    thrown), the page is the [el-result] and not the tabs of a record,
    and the page offers exactly one button, whose click pushes the
    list route and changes nothing else. *)
Theorem cluster_not_found (data : MockData) (st : State) :
  (forall c, c ∈ mockClusters data -> ClusterInfo.id c <> route_params_id st) ->
  cluster data st = None
  /\ render data st
     = el_result "warning" "集群不存在" "未找到对应的集群信息"
                 [mkButton "返回列表" back]
  /\ tabs_of (render data st) = None
  /\ exists b, buttons (render data st) = [b]
               /\ forall user, UI.run (perform (onClick b) st) user
                               = (Some st, [UI.Push "/cluster"]).
Proof.
  intros H. apply cluster_None in H. unfold render. rewrite H. simpl.
  split; [reflexivity|]. split; [reflexivity|]. split; [reflexivity|].
  eexists. split; [reflexivity|]. intros user. reflexivity.
Qed.

Lemma cluster_not_found_witness :
  (forall c, c ∈ mockClusters Samples.data ->
             ClusterInfo.id c <> route_params_id (setup "cluster-99"))
  /\ is_not_found (render Samples.data (setup "cluster-99")) = true.
Proof.
  assert (H : forall c, c ∈ mockClusters Samples.data ->
                        ClusterInfo.id c <> route_params_id (setup "cluster-99")).
  { apply cluster_None. vm_compute. reflexivity. }
  split; [exact H|].
  destruct (cluster_not_found Samples.data (setup "cluster-99") H)
    as (_ & -> & _).
  reflexivity.
Defined.

(** C9. Whatever two identifiers the resolver finds records for, the
    nodes, pods and events tabs of the two pages are the same: each is
    drawn from the imported [mockNodes], [mockPods] and [mockEvents],
    row by row, and from nothing of the resolved record. *)
Theorem sub_views_shared (data : MockData) (st1 st2 : State)
    (c1 c2 : ClusterInfo.t) :
  cluster data st1 = Some c1 ->
  cluster data st2 = Some c2 ->
  exists t1 t2,
    tabs_of (render data st1) = Some t1
    /\ tabs_of (render data st2) = Some t2
    /\ nodes t1 = nodes t2
    /\ pods t1 = pods t2
    /\ events t1 = events t2
    /\ List.map node t1.(nodes) = mockNodes data
    /\ List.map pod t1.(pods) = mockPods data
    /\ List.map event t1.(events) = mockEvents data.
Proof.
  intros H1 H2. unfold render. rewrite H1, H2. simpl.
  eexists. eexists. split; [reflexivity|]. split; [reflexivity|]. simpl.
  split; [reflexivity|]. split; [reflexivity|]. split; [reflexivity|].
  rewrite !List.map_map. simpl.
  split; [apply List.map_id|]. split; [apply List.map_id|].
  erewrite List.map_ext; [apply List.map_id|].
  intros e. unfold event_item. now destruct (EventInfo.type e).
Qed.

Lemma sub_views_shared_witness :
  cluster Samples.data (setup "cluster-1") = Some (Samples.cluster 1)
  /\ cluster Samples.data (setup "cluster-14") = Some (Samples.cluster 14)
  /\ exists t1 t2,
       tabs_of (render Samples.data (setup "cluster-1")) = Some t1
       /\ tabs_of (render Samples.data (setup "cluster-14")) = Some t2
       /\ nodes t1 = nodes t2 /\ pods t1 = pods t2 /\ events t1 = events t2.
Proof.
  assert (H1 : cluster Samples.data (setup "cluster-1")
               = Some (Samples.cluster 1)) by (vm_compute; reflexivity).
  assert (H2 : cluster Samples.data (setup "cluster-14")
               = Some (Samples.cluster 14)) by (vm_compute; reflexivity).
  split; [exact H1 | split; [exact H2|]].
  destruct (sub_views_shared Samples.data _ _ _ _ H1 H2)
    as (t1 & t2 & E1 & E2 & Hn & Hp & He & _).
  exists t1, t2. auto.
Defined.

End ClusterDetailFacts.

(** ** Loading flags *)

Module LoadingFacts.
Import Browser.

(** Whatever the body does, [finally { loading.value = false }] leaves
    the flag down. *)
Lemma try_finally_loading {A} (body : Dashboard.M A) (st : Dashboard.State) :
  Dashboard.loading
    (snd (Dashboard.try_finally body
            (Dashboard.modify (Dashboard.set_loading false)) st)) = false
  /\ fst (Dashboard.try_finally body
            (Dashboard.modify (Dashboard.set_loading false)) st)
     = fst (body st).
Proof.
  unfold Dashboard.try_finally, Dashboard.modify.
  destruct (body st) as [r st1]. simpl. split; reflexivity.
Qed.

Lemma refreshData_outcomes :
  let st := Dashboard.setup Samples.clusters in
  fst (Dashboard.refreshData Samples.failing_env st) = thrown "echarts: init failed"
  /\ Dashboard.loading (snd (Dashboard.refreshData Samples.failing_env st)) = false
  /\ fst (Dashboard.refreshData Samples.working_env st) = returned tt
  /\ Dashboard.loading (snd (Dashboard.refreshData Samples.working_env st)) = false
  /\ Dashboard.cpuUsage
       (Dashboard.statistics (snd (Dashboard.refreshData Samples.working_env st)))
     = 65%float.
Proof. vm_compute. repeat split. Qed.

(** C8. [refreshData] raises the flag before it is suspended and, at
    whatever state it resumes and whether its body returns or throws,
    ends with the flag down, by its [finally]; the [handleRefresh] of
    the list and of the detail view raise the flag and register one
    timer, whose callback lowers the flag as its first statement. *)
Theorem loading_always_reset (env : Env)
    (st resumed : Dashboard.State)
    (ls lfired : ClusterList.State) (ds dfired : ClusterDetail.State)
    (user : list UI.Settled) :
  Dashboard.loading (Dashboard.refreshData_start st) = true
  /\ Dashboard.loading (snd (Dashboard.refreshData_resume env resumed)) = false
  /\ Dashboard.loading (snd (Dashboard.refreshData env st)) = false
  /\ (exists ls1,
        UI.run (ClusterList.handleRefresh ls) user
        = (Some ls1, [UI.Timer ClusterList.refresh_done 300])
        /\ ClusterList.loading ls1 = true)
  /\ (exists ls2,
        fst (UI.run (ClusterList.fire ClusterList.refresh_done lfired) user)
        = Some ls2
        /\ ClusterList.loading ls2 = false)
  /\ (exists ds1,
        UI.run (ClusterDetail.handleRefresh ds) user
        = (Some ds1, [UI.Timer ClusterDetail.refresh_done 300])
        /\ ClusterDetail.loading ds1 = true)
  /\ (exists ds2,
        fst (UI.run (ClusterDetail.fire ClusterDetail.refresh_done dfired) user)
        = Some ds2
        /\ ClusterDetail.loading ds2 = false).
Proof.
  split; [reflexivity|].
  split; [apply try_finally_loading|].
  split; [apply try_finally_loading|].
  split; [eexists; split; reflexivity|].
  split; [eexists; split; reflexivity|].
  split; [eexists; split; reflexivity|].
  eexists; split; reflexivity.
Qed.

End LoadingFacts.

(** * Further properties *)

(** ** Filtering and paging *)

Module ListViewFacts.
Import ClusterList Statements Paging.

Lemma append_assoc (a b c : string) : (a +:+ b) +:+ c = a +:+ (b +:+ c).
Proof.
  induction a as [|x a IH]; JSStringFacts.norm_append;
    [reflexivity | now rewrite IH].
Qed.

Lemma occurs_trans (a b c : string) :
  JSString.occurs a b -> JSString.occurs b c -> JSString.occurs a c.
Proof.
  intros (p1 & s1 & ->) (p2 & s2 & ->).
  exists (p2 +:+ p1), (s1 +:+ s2). now rewrite !append_assoc.
Qed.

Lemma occurs_empty (a : string) :
  JSString.occurs a EmptyString -> a = EmptyString.
Proof.
  intros (p & s & H). destruct p; JSStringFacts.norm_append; [|discriminate].
  destruct a; JSStringFacts.norm_append; [reflexivity | discriminate].
Qed.

Lemma filter_sublist {A} (f : A -> bool) (l : list A) :
  List.filter f l `sublist_of` l.
Proof.
  induction l as [|x l IH]; simpl; [constructor|].
  destruct (f x); [now apply sublist_skip | now apply sublist_cons].
Qed.

Lemma slice_sublist {A} (arr : list A) (start stop : Z) :
  JSArray.slice arr start stop `sublist_of` arr.
Proof.
  unfold JSArray.slice. cbv zeta.
  etransitivity; [apply sublist_take | apply sublist_drop].
Qed.

Lemma filteredData_page (p : Z) (st : State) :
  filteredData (update_currentPage p st) = filteredData st.
Proof. reflexivity. Qed.

(** Consecutive windows of width [s] make up the front of the list. *)
Lemma windows_concat {A} (l : list A) (s n : nat) :
  concat (List.map (fun k => take s (drop (k * s) l)) (seq 0 n))
  = take (n * s) l.
Proof.
  induction n as [|n IH]; [reflexivity|].
  rewrite List.seq_S, List.map_app, concat_app, IH. simpl.
  rewrite app_nil_r, take_take_drop. f_equal. lia.
Qed.

(** X1. With a positive page size, the pages 1 to [n] laid end to end
    are the filtered list, as soon as [n] pages have room for it: no
    record is shown twice, none is left out, the order is kept. *)
Theorem pages_partition (st : State) (n : nat) :
  0 < pageSize st ->
  total st <= Z.of_nat n * pageSize st ->
  concat (pages st n) = filteredData st.
Proof.
  intros Hs Hn. unfold pages.
  rewrite <- List.seq_shift, List.map_map.
  rewrite (List.map_ext _
             (fun k => take (Z.to_nat (pageSize st))
                            (drop (k * Z.to_nat (pageSize st)) (filteredData st)))).
  - rewrite windows_concat. apply take_ge. unfold total in Hn. nia.
  - intros k. unfold page, tableData. cbv zeta.
    rewrite filteredData_page. simpl currentPage. simpl pageSize.
    rewrite JSArrayFacts.slice_window by nia.
    do 2 f_equal. nia.
Qed.

Lemma pages_partition_witness :
  0 < pageSize (Samples.list_state 1 10)
  /\ total (Samples.list_state 1 10) <= Z.of_nat 3 * pageSize (Samples.list_state 1 10)
  /\ concat (pages (Samples.list_state 1 10) 3) = Samples.clusters.
Proof.
  assert (H1 : 0 < pageSize (Samples.list_state 1 10)) by reflexivity.
  assert (H2 : total (Samples.list_state 1 10)
               <= Z.of_nat 3 * pageSize (Samples.list_state 1 10))
    by (vm_compute; discriminate).
  split; [exact H1 | split; [exact H2|]].
  exact (pages_partition (Samples.list_state 1 10) 3 H1 H2).
Defined.

(** X2. Whatever the page and the page size are (zero and negative
    numbers included), the visible page is a sublist of the filtered
    list, which is a sublist of the collection: every visible record is
    a record of the collection that passes both tests, and records
    appear in the order of the collection. *)
Theorem tableData_sublist (st : State) :
  tableData st `sublist_of` filteredData st
  /\ filteredData st `sublist_of` mockClusters st
  /\ forall R, R ∈ tableData st ->
               R ∈ mockClusters st /\ passes (searchForm st) R = true.
Proof.
  assert (H1 : tableData st `sublist_of` filteredData st)
    by apply slice_sublist.
  assert (H2 : filteredData st `sublist_of` mockClusters st)
    by (rewrite ClusterListFacts.filteredData_filter; apply filter_sublist).
  split; [exact H1 | split; [exact H2|]].
  intros R HR. apply (elem_of_sublist _ _ _ HR) in H1 as HR'. clear HR.
  rename HR' into HR.
  rewrite ClusterListFacts.filteredData_filter in HR.
  apply list_elem_of_In, List.filter_In in HR as [Hin Hp].
  split; [now apply list_elem_of_In | exact Hp].
Qed.

(** X3. The status filter is compared as a string, letter case
    included: a status filter that is not empty and is not the string
    of one of the four statuses leaves no record. *)
Theorem filteredData_unknown_status (st : State) :
  status (searchForm st) <> EmptyString ->
  (forall s : ClusterStatus, status_string s <> status (searchForm st)) ->
  filteredData st = [] /\ total st = 0 /\ tableData st = [].
Proof.
  intros Hne Hno.
  assert (H : filteredData st = []).
  { destruct (filteredData st) as [|R rest] eqn:E; [reflexivity|].
    assert (HR : R ∈ filteredData st) by (rewrite E; apply list_elem_of_here).
    rewrite ClusterListFacts.filteredData_filter in HR.
    apply list_elem_of_In, List.filter_In in HR as [_ Hp].
    unfold passes in Hp. apply andb_true_iff in Hp as [_ Hp].
    apply ClusterListFacts.status_test_spec in Hp as [Hp|Hp]; [contradiction|].
    now apply Hno in Hp. }
  split; [exact H|]. unfold total, tableData. rewrite H.
  split; [reflexivity|]. cbv zeta. unfold JSArray.slice. cbv zeta.
  now rewrite drop_nil, take_nil.
Qed.

Lemma filteredData_unknown_status_witness :
  filteredData (select_status "Running" (Samples.list_state 1 10)) = [].
Proof.
  apply (filteredData_unknown_status
           (select_status "Running" (Samples.list_state 1 10))).
  - discriminate.
  - intros []; discriminate.
Defined.

(** X4. When the conversion to lower case of the name filter [f]
    occurs in the conversion of the name filter [f'], every record
    shown for [f'] is shown for [f]; so it is for ASCII filters when
    [f] occurs in [f'] up to letter case: extending such a filter never
    adds rows. *)
Theorem filteredData_narrows (st : State) (f f' : string) (R : ClusterInfo.t) :
  (JSString.includes (JSString.toLowerCase f') (JSString.toLowerCase f) = true ->
   R ∈ filteredData (input_name f' st) -> R ∈ filteredData (input_name f st))
  /\ (JSString.is_ascii f = true -> JSString.is_ascii f' = true ->
      JSString.occurs_ignore_case f f' ->
      R ∈ filteredData (input_name f' st) -> R ∈ filteredData (input_name f st)).
Proof.
  assert (H : JSString.includes (JSString.toLowerCase f')
                                (JSString.toLowerCase f) = true ->
              R ∈ filteredData (input_name f' st) ->
              R ∈ filteredData (input_name f st)).
  { intros Hff.
    rewrite !ClusterListFacts.filteredData_filter, !list_elem_of_In,
      !List.filter_In.
    intros [Hin Hp]. split; [exact Hin|].
    unfold passes in *. simpl in *.
    apply andb_true_iff in Hp as [Hn Hs]. apply andb_true_iff.
    split; [|exact Hs].
    unfold name_matches in *. simpl in *.
    apply JSStringFacts.includes_spec in Hff.
    destruct f' as [|c f'].
    - apply occurs_empty in Hff.
      apply (proj1 (JSStringFacts.toLowerCase_empty f)) in Hff. now subst f.
    - simpl JSString.truthy in Hn. simpl negb in Hn. rewrite orb_false_l in Hn.
      apply JSStringFacts.includes_spec in Hn.
      apply orb_true_iff. right. apply JSStringFacts.includes_spec.
      eapply occurs_trans; eassumption. }
  split; [exact H|].
  intros Hf Hf' Ho. apply H.
  now apply JSStringFacts.includes_lower_ascii.
Qed.

Lemma filteredData_narrows_witness :
  JSString.includes (JSString.toLowerCase "Cluster-2")
                    (JSString.toLowerCase "LUST") = true
  /\ Samples.cluster 2
     ∈ filteredData (input_name "LUST" (Samples.list_state 1 10)).
Proof.
  split; [vm_compute; reflexivity|].
  apply (proj1 (filteredData_narrows (Samples.list_state 1 10) "LUST"
                  "Cluster-2" (Samples.cluster 2)));
    [vm_compute; reflexivity|].
  vm_compute. apply list_elem_of_here.
Defined.

(** X5. After the reset button the form is empty and the page is 1: the
    filtered list is the whole collection, the table shows its first
    [pageSize] records, and the selection is the one before. *)
Theorem handleReset_shows_all (st : State) (user : list UI.Settled) :
  0 <= pageSize st ->
  exists st',
    UI.run (handleReset st) user = (Some st', [])
    /\ filteredData st' = mockClusters st
    /\ total st' = Z.of_nat (length (mockClusters st))
    /\ tableData st' = take (Z.to_nat (pageSize st)) (mockClusters st)
    /\ selectedRows st' = selectedRows st.
Proof.
  intros Hs. eexists. split; [reflexivity|].
  split; [reflexivity|]. split; [reflexivity|]. split; [|reflexivity].
  unfold tableData. cbv zeta. simpl currentPage. simpl pageSize.
  change ((1 - 1) * pageSize st) with 0.
  rewrite JSArrayFacts.slice_window by lia. reflexivity.
Qed.

Lemma handleReset_shows_all_witness :
  exists st',
    UI.run (handleReset (select_status "error" (Samples.list_state 3 5))) []
    = (Some st', [])
    /\ filteredData st' = Samples.clusters.
Proof.
  destruct (handleReset_shows_all
              (select_status "error" (Samples.list_state 3 5)) [])
    as (st' & H1 & H2 & _); [vm_compute; discriminate|].
  exists st'. split; [exact H1 | exact H2].
Defined.

End ListViewFacts.

(** ** The list view over series of inputs *)

Module ListMachineFacts.
Import ClusterList ListMachine.

Lemma steps_cons (m : Machine) (i : Input) (inputs : list Input) :
  steps m (i :: inputs) = steps (step m i) inputs.
Proof. reflexivity. Qed.

Lemma steps_app (m : Machine) (l1 l2 : list Input) :
  steps m (l1 ++ l2) = steps (steps m l1) l2.
Proof. apply List.fold_left_app. Qed.

Ltac run_step :=
  unfold step, deliver, handleBatchDelete; simpl;
  repeat match goal with
         | a : UI.Settled |- _ => destruct a; simpl
         | cb : Callback |- _ => destruct cb; simpl
         | |- context [(length ?l =? 0)%nat] =>
             destruct (length l =? 0)%nat eqn:?; simpl
         | |- context [match pending ?m with _ => _ end] =>
             let E := fresh "E" in destruct (pending m) eqn:E; simpl
         end.

Lemma step_loading_covered (m : Machine) (i : Input) :
  loading_covered m -> loading_covered (step m i).
Proof.
  unfold loading_covered. intros H.
  destruct i; run_step; rewrite ?app_nil_r; try exact H;
    try (intros Hl; discriminate Hl);
    try (intros _ Habs; apply app_eq_nil in Habs as [_ Habs];
         discriminate Habs);
    try (intros Hl; exfalso; apply (H Hl); reflexivity).
Qed.

Lemma steps_loading_covered (inputs : list Input) (m : Machine) :
  loading_covered m -> loading_covered (steps m inputs).
Proof.
  revert m; induction inputs as [|i inputs IH]; intros m H; [exact H|].
  rewrite steps_cons. apply IH. now apply step_loading_covered.
Qed.

(** A timer that fires lowers the flag and leaves the queue. *)
Lemma timer_fires_pending (m : Machine) (cb : Callback) (rest : list Callback) :
  pending m = cb :: rest ->
  loading (view (step m timer_fires)) = false
  /\ pending (step m timer_fires) = rest.
Proof.
  intros E. unfold step. rewrite E. unfold deliver.
  destruct cb; simpl; now rewrite app_nil_r.
Qed.

Lemma drain_n (n : nat) (m : Machine) :
  length (pending m) = n ->
  (n = 0%nat -> loading (view m) = false) ->
  loading (view (steps m (replicate n timer_fires))) = false
  /\ pending (steps m (replicate n timer_fires)) = [].
Proof.
  revert m; induction n as [|n IH]; intros m Hlen H0.
  - simpl. split; [now apply H0 | now apply length_zero_iff_nil].
  - destruct (pending m) as [|cb rest] eqn:E; [discriminate|].
    destruct (timer_fires_pending m cb rest E) as [Hl Hp].
    rewrite replicate_S, steps_cons. apply IH.
    + rewrite Hp. simpl in Hlen. lia.
    + intros _. exact Hl.
Qed.

(** X6. In the list view, over every series of inputs from the set-up
    component, a raised loading flag always has a timer waiting for
    it, and once the waiting timers have fired the flag is down and no
    timer is left. *)
Theorem loading_has_timer (clusters : list ClusterInfo.t)
    (inputs : list Input) :
  let m := steps (boot clusters) inputs in
  loading_covered m
  /\ loading (view (drain m)) = false
  /\ pending (drain m) = [].
Proof.
  intros m.
  assert (H : loading_covered m).
  { apply steps_loading_covered. intros Hl. discriminate Hl. }
  split; [exact H|]. apply drain_n; [reflexivity|].
  intros Hn. apply length_zero_iff_nil in Hn.
  destruct (loading (view m)) eqn:E; [|reflexivity].
  now apply H in E.
Qed.

Lemma step_mockClusters (m : Machine) (i : Input) :
  mockClusters (view (step m i)) = mockClusters (view m).
Proof. destruct i; run_step; reflexivity. Qed.

Lemma steps_mockClusters (inputs : list Input) (m : Machine) :
  mockClusters (view (steps m inputs)) = mockClusters (view m).
Proof.
  revert m; induction inputs as [|i inputs IH]; intros m; [reflexivity|].
  rewrite steps_cons, IH. apply step_mockClusters.
Qed.

(** X7. Deleting is simulated: over every series of inputs, confirmed
    deletions and batch deletions included, the collection of the view
    is the one it was set up with, and after a click on reset the
    filtered list is that whole collection again. *)
Theorem collection_never_changes (clusters : list ClusterInfo.t)
    (inputs : list Input) :
  mockClusters (view (steps (boot clusters) inputs)) = clusters
  /\ filteredData (view (steps (boot clusters) (inputs ++ [click_reset])))
     = clusters.
Proof.
  split; [apply steps_mockClusters|].
  rewrite steps_app. simpl steps at 1.
  set (m := steps (boot clusters) inputs).
  assert (H : mockClusters (view m) = clusters) by apply steps_mockClusters.
  unfold step, deliver. simpl. exact H.
Qed.

Lemma step_selectedRows (m : Machine) (i : Input) :
  is_selection_change i = false ->
  selectedRows (view (step m i)) = selectedRows (view m).
Proof. destruct i; intros Hi; try discriminate Hi; run_step; reflexivity. Qed.

(** X8. No handler and no binding of the list view other than
    [handleSelectionChange] writes the selection: over every series of
    inputs that holds no selection event of the table (edits of the
    form and of the pagination, searches, resets, refreshes, views,
    creations, deletions confirmed or declined, timer callbacks) the
    checked rows are what they were before. *)
Theorem selection_kept (inputs : list Input) (m : Machine) :
  forallb (fun i => negb (is_selection_change i)) inputs = true ->
  selectedRows (view (steps m inputs)) = selectedRows (view m).
Proof.
  revert m; induction inputs as [|i inputs IH]; intros m H; [reflexivity|].
  simpl in H. apply andb_true_iff in H as [Hi H].
  rewrite steps_cons, IH by exact H.
  apply step_selectedRows. now apply negb_true_iff.
Qed.

Lemma selection_kept_witness :
  selectedRows
    (view (steps (mkMachine Samples.two_selected [] [])
                 [click_refresh; timer_fires; click_create;
                  click_delete (Samples.cluster 1) UI.rejected;
                  click_batch_delete UI.resolved]))
  = take 2 Samples.clusters.
Proof.
  exact (selection_kept
           [click_refresh; timer_fires; click_create;
            click_delete (Samples.cluster 1) UI.rejected;
            click_batch_delete UI.resolved]
           (mkMachine Samples.two_selected [] []) eq_refl).
Defined.

End ListMachineFacts.

(** ** Confirmation dialogs *)

Module DialogFacts.
Import ClusterList.

(** X9. A deletion of a row opens the dialog, whose text holds the
    name of the row, and nothing else before it; confirmed, it shows
    the success message and nothing more; declined, it shows nothing
    more at all; never answered, it does not return. The refs are not
    written in any case. *)
Theorem handleDelete_answers (row : ClusterInfo.t) (st : State)
    (user : list UI.Settled) :
  UI.run (handleDelete row st) user
  = (if head user is Some _ then Some st else None,
     UI.Dialog ("确定要删除集群 " +:+ quote +:+ ClusterInfo.name row +:+ quote
                +:+ " 吗？此操作不可恢复。")
               "删除确认" (head user)
     :: (if head user is Some UI.resolved
         then [UI.Message UI.success "删除成功（模拟）"] else [])).
Proof. destruct user as [|[] user]; reflexivity. Qed.

(** X10. The guard of the batch handler agrees with the batch button:
    the handler warns exactly when the button is disabled, and opens
    the dialog, with the number of checked rows in its text, exactly
    when the button is enabled. *)
Theorem handleBatchDelete_guard (st : State) (user : list UI.Settled) :
  let trace := snd (UI.run (handleBatchDelete st) user) in
  (batch_disabled st = true
   <-> trace = [UI.Message UI.warning "请选择要删除的数据"])
  /\ (batch_disabled st = false
      <-> head trace
          = Some (UI.Dialog ("确定要删除选中的 "
                             +:+ pretty (length (selectedRows st))
                             +:+ " 个集群吗？")
                            "批量删除确认" (head user))).
Proof.
  unfold batch_disabled, handleBatchDelete.
  destruct (length (selectedRows st) =? 0)%nat; simpl.
  - split; split; try reflexivity; discriminate.
  - destruct user as [|[] user]; simpl;
      (split; split; try reflexivity; discriminate).
Qed.

End DialogFacts.

(** ** The resolver and the tag tables *)

Module DetailViewFacts.
Import ClusterDetail JSObject TagTables.

Lemma find_first {A} (pred : A -> bool) (arr : list A) (x : A) :
  x ∈ arr -> pred x = true ->
  exists y, JSArray.find pred arr = Some y /\ y ∈ arr /\ pred y = true.
Proof.
  intros Hin Hp. destruct (JSArray.find pred arr) as [y|] eqn:E.
  - exists y. split; [reflexivity|]. now apply JSArrayFacts.find_Some.
  - rewrite JSArrayFacts.find_None in E. rewrite (E x Hin) in Hp. discriminate.
Qed.

Lemma NoDup_key_inj {A B} (f : A -> B) (l : list A) (x y : A) :
  NoDup (List.map f l) -> x ∈ l -> y ∈ l -> f x = f y -> x = y.
Proof.
  induction l as [|z l IH]; simpl; intros Hnd Hx Hy Hf; [inversion Hx|].
  apply NoDup_cons in Hnd as [Hz Hnd].
  apply elem_of_cons in Hx as [->|Hx]; apply elem_of_cons in Hy as [->|Hy].
  - reflexivity.
  - exfalso. apply Hz. rewrite Hf.
    apply list_elem_of_In, List.in_map, list_elem_of_In, Hy.
  - exfalso. apply Hz. rewrite <- Hf.
    apply list_elem_of_In, List.in_map, list_elem_of_In, Hx.
  - now apply IH.
Qed.

(** X11. For the identifier of a record of the collection the resolver
    gives a record of the collection with that identifier, the first
    one, and the page is the detail page, not the not-found page; when
    the identifiers of the collection are pairwise distinct, the record
    is the very one asked for. *)
Theorem listed_record_resolves (data : MockData) (st : State)
    (row : ClusterInfo.t) :
  row ∈ mockClusters data ->
  route_params_id st = ClusterInfo.id row ->
  exists c,
    cluster data st = Some c
    /\ c ∈ mockClusters data
    /\ ClusterInfo.id c = ClusterInfo.id row
    /\ is_not_found (render data st) = false
    /\ (basic <$> tabs_of (render data st)) = Some c
    /\ (NoDup (List.map ClusterInfo.id (mockClusters data)) -> c = row).
Proof.
  intros Hin Hid. unfold render, cluster.
  destruct (find_first
              (fun c => String.eqb (ClusterInfo.id c) (route_params_id st))
              (mockClusters data) row Hin) as (c & E & Hc & Hp).
  { rewrite Hid. apply String.eqb_refl. }
  apply String.eqb_eq in Hp. rewrite E. exists c.
  split; [reflexivity|]. split; [exact Hc|]. split; [congruence|].
  split; [reflexivity|]. split; [reflexivity|].
  intros Hnd. apply (NoDup_key_inj ClusterInfo.id (mockClusters data)); auto.
  congruence.
Qed.

Lemma listed_record_resolves_witness :
  Samples.cluster 7 ∈ mockClusters Samples.data
  /\ exists c, cluster Samples.data (setup "cluster-7") = Some c
               /\ ClusterInfo.id c = "cluster-7".
Proof.
  assert (H : Samples.cluster 7 ∈ mockClusters Samples.data).
  { apply list_elem_of_In, (List.in_map Samples.cluster), List.in_seq. lia. }
  split; [exact H|].
  destruct (listed_record_resolves Samples.data (setup "cluster-7")
              (Samples.cluster 7) H eq_refl) as (c & E & _ & Hid & _).
  exists c. split; [exact E | exact Hid].
Defined.

Ltac each_entry H :=
  repeat (apply elem_of_cons in H as [H|H];
          [injection H as -> ->|]);
  try (apply elem_of_nil in H; destruct H).

(** X12. For every string that is not a property name of
    [Object.prototype], key of the table or not, both copies of
    [getStatusType] return one of the four tag types that are not
    empty: never [undefined], never the empty type. *)
Theorem getStatusType_range (status : string) :
  status ∉ Object_prototype ->
  (exists t, t ∈ tag_types /\ ClusterList.getStatusType status = str t)
  /\ (exists t, t ∈ tag_types /\ ClusterDetail.getStatusType status = str t).
Proof.
  intros Hp. unfold ClusterList.getStatusType, ClusterDetail.getStatusType.
  rewrite !StatusTypeFacts.or_info_cases, (bool_decide_eq_false_2 _ Hp).
  unfold tag_types. split.
  - destruct (ClusterList.getStatusType_map !! status) as [v|] eqn:E.
    + change ClusterList.getStatusType_map
        with (list_to_map
                [("running", "success"); ("stopped", "info");
                 ("error", "danger"); ("pending", "warning")]
              : gmap string string) in E.
      apply elem_of_list_to_map_2 in E. each_entry E; simpl;
        eexists; (split; [|reflexivity]); apply list_elem_of_In; simpl; tauto.
    + exists "info". split; [apply list_elem_of_In; simpl; tauto | reflexivity].
  - destruct (ClusterDetail.getStatusType_map !! status) as [v|] eqn:E.
    + apply elem_of_list_to_map_2 in E. each_entry E; simpl;
        eexists; (split; [|reflexivity]); apply list_elem_of_In; simpl; tauto.
    + exists "info". split; [apply list_elem_of_In; simpl; tauto | reflexivity].
Qed.

Lemma getStatusType_range_witness :
  exists t, t ∈ tag_types /\ ClusterDetail.getStatusType "Succeeded" = str t.
Proof.
  refine (proj2 (getStatusType_range "Succeeded" _)).
  intros H. apply list_elem_of_In in H. simpl in H.
  repeat (destruct H as [H|H]; [discriminate H|]). exact H.
Defined.

(** X13. The two copies of [getStatusType] return the same for every
    string except the seven keys that only the detail view maps to a
    type ([Succeeded] and [worker], mapped to the empty type, fall back
    to ['info'] as they do in the list view); the two copies of
    [getStatusLabel] return the same for every string, those seven
    included. *)
Theorem getStatusType_copies_agree (status : string) :
  (status ∉ detail_only_keys ->
   ClusterList.getStatusType status = ClusterDetail.getStatusType status)
  /\ ClusterList.getStatusLabel status = ClusterDetail.getStatusLabel status.
Proof.
  split; [|reflexivity]. intros Hk.
  unfold ClusterList.getStatusType, ClusterDetail.getStatusType.
  rewrite !StatusTypeFacts.or_info_cases.
  destruct (ClusterDetail.getStatusType_map !! status) as [v|] eqn:E.
  - apply elem_of_list_to_map_2 in E. each_entry E;
      first [ reflexivity
            | exfalso; apply Hk, list_elem_of_In; simpl; tauto ].
  - assert (E' : ClusterList.getStatusType_map !! status = None).
    { apply not_elem_of_list_to_map_2 in E.
      change ClusterList.getStatusType_map
        with (list_to_map
                [("running", "success"); ("stopped", "info");
                 ("error", "danger"); ("pending", "warning")]
              : gmap string string).
      apply not_elem_of_list_to_map_1. intros H. apply E.
      apply list_elem_of_In in H. apply list_elem_of_In. simpl in *. tauto. }
    now rewrite E'.
Qed.

Lemma getStatusType_copies_agree_witness :
  ClusterList.getStatusType "worker" = ClusterDetail.getStatusType "worker"
  /\ ClusterList.getStatusLabel "Running" = ClusterDetail.getStatusLabel "Running".
Proof.
  split.
  - refine (proj1 (getStatusType_copies_agree "worker") _).
    intros H. apply list_elem_of_In in H. simpl in H.
    repeat (destruct H as [H|H]; [discriminate H|]). exact H.
  - exact (proj2 (getStatusType_copies_agree "Running")).
Defined.

Lemma or_get_cases (table : gmap string string) (key : string) (d : Value) :
  or (get table key) d
  = match table !! key with
    | Some v => if JSString.truthy v then str v else d
    | None => if bool_decide (key ∈ Object_prototype) then inherited key else d
    end.
Proof.
  unfold or, get. destruct (table !! key) as [v|]; simpl; [reflexivity|].
  destruct (bool_decide (key ∈ Object_prototype)); reflexivity.
Qed.

(** X14. [getStatusLabel] gives each of the four statuses its label and
    returns every other string that is not a property name of
    [Object.prototype] as it is, the empty string included. *)
Theorem getStatusLabel_cases (status : string) :
  status ∉ Object_prototype ->
  ClusterList.getStatusLabel status
  = str (if String.eqb status "running" then "运行中"
         else if String.eqb status "stopped" then "已停止"
         else if String.eqb status "error" then "错误"
         else if String.eqb status "pending" then "等待中"
         else status).
Proof.
  intros Hp. unfold ClusterList.getStatusLabel.
  rewrite or_get_cases.
  rewrite (bool_decide_eq_false_2 _ Hp).
  unfold ClusterList.getStatusLabel_map.
  repeat (rewrite lookup_insert;
          let Hd := fresh "Hd" in
          case_decide as Hd; [subst status; reflexivity|];
          apply not_eq_sym, String.eqb_neq in Hd; rewrite Hd).
  rewrite lookup_singleton. case_decide as Hlast; [subst status; reflexivity|].
  apply not_eq_sym, String.eqb_neq in Hlast. rewrite Hlast. reflexivity.
Qed.

Lemma getStatusLabel_cases_witness :
  ClusterList.getStatusLabel "Terminating" = str "Terminating"
  /\ ClusterList.getStatusLabel "error" = str "错误".
Proof.
  assert (H : forall s, List.existsb (String.eqb s) Object_prototype = false ->
                        s ∉ Object_prototype).
  { intros s Hs Hin. apply list_elem_of_In in Hin.
    assert (Hex : List.existsb (String.eqb s) Object_prototype = true).
    { apply List.existsb_exists. exists s. split; [exact Hin|].
      apply String.eqb_refl. }
    congruence. }
  split.
  - exact (getStatusLabel_cases "Terminating" (H "Terminating" eq_refl)).
  - exact (getStatusLabel_cases "error" (H "error" eq_refl)).
Defined.

End DetailViewFacts.

(** ** Refreshing the dashboard *)

Module RefreshFacts.
Import Browser Dashboard DashboardCharts Statements.

Lemma bind_outside {A B} (m : M A) (k : A -> M B) :
  (forall st, outside_refresh (snd (m st)) = outside_refresh st) ->
  (forall a st, outside_refresh (snd (k a st)) = outside_refresh st) ->
  forall st, outside_refresh (snd ((m ≫= k) st)) = outside_refresh st.
Proof.
  intros Hm Hk st. unfold mbind, M_bind. specialize (Hm st).
  destruct (m st) as [[a|e] st1]; simpl in *; [|exact Hm].
  now rewrite Hk.
Qed.

Lemma initChart_outside (env : Env) (dom : string)
    (store : option Chart -> State -> State) :
  (forall c st, outside_refresh (store c st) = outside_refresh st) ->
  forall st, outside_refresh (snd (initChart env dom store st))
             = outside_refresh st.
Proof.
  intros Hstore st. unfold initChart.
  destruct (getElementById env dom); simpl; [|reflexivity].
  apply bind_outside; [reflexivity|]. intros chart st1.
  apply bind_outside; [|reflexivity].
  intros st2. simpl. apply Hstore.
Qed.

Lemma initCharts_outside (env : Env) (st : State) :
  outside_refresh (snd (initCharts env st)) = outside_refresh st.
Proof.
  unfold initCharts, initCpuChart, initMemoryChart, initPodChart,
    initClusterChart.
  repeat (apply bind_outside; [now apply initChart_outside | intros _; clear st; intros st]).
  now apply initChart_outside.
Qed.

Lemma length_filter_le {A} (f : A -> bool) (l : list A) :
  (length (List.filter f l) <= length l)%nat.
Proof. apply sublist_length, ListViewFacts.filter_sublist. Qed.

(** X15. A refresh writes the four usage numbers, the charts and the
    loading flag and nothing else: whatever the surroundings answer and
    however the chart library fails, the time range, the switch, the
    tracked timer, the timer table and the four counts are as before;
    and the counts the component sets up satisfy
    [0 <= runningClusters <= totalClusters]. *)
Theorem refreshData_outside (env : Env) (st : State)
    (clusters : list ClusterInfo.t) :
  outside_refresh (snd (refreshData env st)) = outside_refresh st
  /\ 0 <= runningClusters (statistics (setup clusters))
     <= totalClusters (statistics (setup clusters))
  /\ totalClusters (statistics (setup clusters)) = Z.of_nat (length clusters).
Proof.
  split.
  - unfold refreshData, refreshData_resume, try_finally, refreshData_start.
    set (body := modify _ ≫= _).
    assert (Hb : forall st0, outside_refresh (snd (body st0)) = outside_refresh st0).
    { apply bind_outside; [reflexivity|]. intros _. apply initCharts_outside. }
    specialize (Hb (set_loading true st)).
    destruct (body (set_loading true st)) as [r st1]. simpl in *. exact Hb.
  - simpl. pose proof (length_filter_le
      (fun c => String.eqb (status_string (ClusterInfo.status c)) "running")
      clusters). lia.
Qed.

(** X16. While none of the four chart targets is in the document,
    whatever else the document holds, the chart library is not called:
    [initCharts] returns with the state it got, and a refresh returns
    normally with the chart variables as before and the flag down. *)
Theorem initCharts_unmounted (env : Env) (st : State) :
  getElementById env "cpu-chart" = false ->
  getElementById env "memory-chart" = false ->
  getElementById env "pod-chart" = false ->
  getElementById env "cluster-chart" = false ->
  initCharts env st = (returned tt, st)
  /\ fst (refreshData env st) = returned tt
  /\ charts (snd (refreshData env st)) = charts st
  /\ loading (snd (refreshData env st)) = false.
Proof.
  intros H1 H2 H3 H4.
  assert (Hi : forall st0, initCharts env st0 = (returned tt, st0)).
  { intros st0. unfold initCharts, initCpuChart, initMemoryChart, initPodChart,
      initClusterChart, initChart. rewrite H1, H2, H3, H4. reflexivity. }
  split; [apply Hi|].
  unfold refreshData, refreshData_resume, try_finally, refreshData_start.
  unfold mbind, M_bind, modify. rewrite Hi. simpl. auto.
Qed.

Lemma initCharts_unmounted_witness :
  charts (snd (refreshData
                 (mkEnv (fun _ => 0.5%float) (fun dom => String.eqb dom "app")
                        (fun _ => thrown "not reached") (fun _ => returned tt))
                 (setup Samples.clusters)))
  = (None, None, None, None).
Proof.
  exact (proj1 (proj2 (proj2
           (initCharts_unmounted
              (mkEnv (fun _ => 0.5%float) (fun dom => String.eqb dom "app")
                     (fun _ => thrown "not reached") (fun _ => returned tt))
              (setup Samples.clusters) eq_refl eq_refl eq_refl eq_refl)))).
Defined.

(** X17. A refresh has no [catch]: when the first chart target is in
    the document and [echarts.init] throws for it, the refresh ends by
    throwing the same error, after the flag is lowered and with the
    usage numbers already refreshed; none of the four chart variables
    is written, the three later charts are not initialised. *)
Theorem refreshData_throws (env : Env) (st : State) (e : string) :
  getElementById env "cpu-chart" = true ->
  echarts_init env "cpu-chart" = thrown e ->
  refreshData env st
  = (thrown e,
     set_loading false
       (set_statistics (refreshed_statistics env (statistics st))
                       (set_loading true st)))
  /\ charts (snd (refreshData env st)) = charts st.
Proof.
  intros Hdom Hinit.
  assert (H : refreshData env st
              = (thrown e,
                 set_loading false
                   (set_statistics (refreshed_statistics env (statistics st))
                                   (set_loading true st)))).
  { unfold refreshData, refreshData_resume, try_finally, refreshData_start,
      initCharts, initCpuChart, initChart.
    unfold mbind, M_bind, modify, call. rewrite Hdom, Hinit. reflexivity. }
  split; [exact H | now rewrite H].
Qed.

Lemma refreshData_throws_witness :
  fst (refreshData Samples.failing_env (setup Samples.clusters))
  = thrown "echarts: init failed".
Proof.
  exact (f_equal fst (proj1 (refreshData_throws Samples.failing_env
                               (setup Samples.clusters) "echarts: init failed"
                               eq_refl eq_refl))).
Defined.

End RefreshFacts.

(** ** The refresh timer over the life of the dashboard *)

Module TimerFacts.
Import Browser Dashboard DashboardCharts Statements.

Lemma tracked_only_autoRefresh (b : bool) (st : State) :
  tracked_only (set_autoRefresh b st) <-> tracked_only st.
Proof. reflexivity. Qed.

Lemma tracked_active (st : State) :
  tracked_only st ->
  active (timers st) = if refreshTimer st is Some _ then 1%nat else 0%nat.
Proof.
  unfold tracked_only, active. intros ->.
  destruct (refreshTimer st); [apply map_size_singleton | apply map_size_empty].
Qed.

Lemma switch_change_in_step (st : State) :
  in_step st ->
  in_step (switch_change (negb (autoRefresh st)) st)
  /\ autoRefresh (switch_change (negb (autoRefresh st)) st)
     = negb (autoRefresh st).
Proof.
  intros [Ht Hiff]. unfold switch_change.
  destruct (autoRefresh st) eqn:Ha; simpl negb.
  - destruct (DashboardFacts.off_tracked_only (set_autoRefresh false st))
      as (Ht' & Hn & _); [exact Ht|].
    assert (Hauto : autoRefresh (handleAutoRefreshChange false
                                   (set_autoRefresh false st)) = false).
    { unfold handleAutoRefreshChange. simpl.
      destruct (refreshTimer st); reflexivity. }
    split; [split; [exact Ht' | now rewrite Hn, Hauto] | exact Hauto].
  - assert (Hnone : refreshTimer st = None) by now apply Hiff.
    destruct (DashboardFacts.on_tracked_only (set_autoRefresh true st))
      as (Ht' & _); [exact Ht | exact Hnone |].
    split; [split; [exact Ht'|] | reflexivity].
    simpl. split; discriminate.
Qed.

Lemma switch_clicks_in_step (n : nat) (st : State) :
  in_step st ->
  let st' := switch_changes (switch_clicks n (autoRefresh st)) st in
  in_step st' /\ autoRefresh st' = xorb (Nat.odd n) (autoRefresh st).
Proof.
  revert st; induction n as [|n IH]; intros st Hst.
  - simpl. split; [exact Hst | reflexivity].
  - destruct (switch_change_in_step st Hst) as [Hst' Ha].
    specialize (IH _ Hst'). rewrite Ha in IH. cbv zeta in *.
    simpl switch_clicks. unfold switch_changes in *. simpl fold_left.
    destruct IH as [IH1 IH2]. split; [exact IH1|].
    rewrite IH2, Nat.odd_succ, <- Nat.negb_odd.
    destruct (Nat.odd n), (autoRefresh st); reflexivity.
Qed.

(** X18. However often the switch is clicked on the set-up dashboard,
    its position and the timer agree: after [n] clicks the switch is on
    exactly when [n] is odd, a timer is tracked exactly when the switch
    is on, and exactly one timer ticks then and none otherwise. *)
Theorem switch_and_timer_agree (clusters : list ClusterInfo.t) (n : nat) :
  let st := switch_changes (switch_clicks n false) (setup clusters) in
  autoRefresh st = Nat.odd n
  /\ (is_Some (refreshTimer st) <-> autoRefresh st = true)
  /\ active (timers st) = if autoRefresh st then 1%nat else 0%nat.
Proof.
  assert (H0 : in_step (setup clusters)).
  { split; [reflexivity | split; reflexivity]. }
  destruct (switch_clicks_in_step n (setup clusters) H0) as [[Ht Hiff] Ha].
  simpl autoRefresh in Ha at 2. simpl autoRefresh in Ht, Hiff, Ha.
  cbv zeta. simpl autoRefresh at 1.
  set (st := switch_changes _ _) in *.
  rewrite xorb_false_r in Ha.
  split; [exact Ha|]. split.
  - rewrite <- not_eq_None_Some, Hiff. now destruct (autoRefresh st).
  - rewrite (tracked_active st Ht).
    destruct (refreshTimer st) as [id|] eqn:E.
    + destruct (autoRefresh st); [reflexivity|].
      discriminate (proj2 Hiff eq_refl).
    + now rewrite (proj1 Hiff eq_refl).
Qed.

Lemma toggled_tracked_only (vals : list bool) (st : State) :
  no_double_on vals = true ->
  tracked_only st ->
  refreshTimer st = None \/ hd false vals = false ->
  tracked_only (toggled vals st).
Proof.
  revert st; induction vals as [|v vals IH]; intros st Hnd Hinv Hfirst;
    [exact Hinv|].
  unfold toggled. simpl fold_left. fold (toggled vals (handleAutoRefreshChange v st)).
  destruct v.
  - assert (Hnone : refreshTimer st = None)
      by (destruct Hfirst as [?|?]; [assumption | discriminate]).
    destruct (DashboardFacts.on_tracked_only st Hinv Hnone) as [Hinv' _].
    destruct vals as [|[|] vals']; [exact Hinv' | discriminate Hnd |].
    apply IH; [exact Hnd | exact Hinv' | right; reflexivity].
  - destruct (DashboardFacts.off_tracked_only st Hinv) as (Hinv' & Hnone & _).
    apply IH; [| exact Hinv' | left; exact Hnone].
    destruct vals; exact Hnd.
Qed.

(** X19. Leaving the view cancels the refresh: after every series of
    calls of the switch handler in which no two calls in a row switch
    on, [onUnmounted] leaves no interval timer ticking. *)
Theorem onUnmounted_cancels (clusters : list ClusterInfo.t)
    (vals : list bool) :
  no_double_on vals = true ->
  active (timers (onUnmounted_timer (toggled vals (setup clusters)))) = 0%nat.
Proof.
  intros Hnd.
  assert (Ht : tracked_only (toggled vals (setup clusters))).
  { apply toggled_tracked_only; [exact Hnd | reflexivity | left; reflexivity]. }
  unfold onUnmounted_timer, active. unfold tracked_only in Ht.
  destruct (refreshTimer (toggled vals (setup clusters))) as [id|]; simpl.
  - rewrite Ht, delete_singleton_eq. apply map_size_empty.
  - rewrite Ht. apply map_size_empty.
Qed.

Lemma onUnmounted_cancels_witness :
  no_double_on [true; false; true] = true
  /\ active (timers (onUnmounted_timer
                       (toggled [true; false; true] (setup Samples.clusters))))
     = 0%nat.
Proof.
  split; [reflexivity|].
  exact (onUnmounted_cancels Samples.clusters [true; false; true] eq_refl).
Defined.

(** X20. The bar chart of the clusters shows the first running
    clusters of the collection, in its order, six at most: as many as
    the smaller of 6 and the count of running clusters on the
    statistics card. *)
Theorem topClusters_spec (clusters : list ClusterInfo.t) :
  Z.of_nat (length (topClusters clusters))
  = Z.min 6 (runningClusters (statistics (setup clusters)))
  /\ topClusters clusters `sublist_of` clusters
  /\ Forall (fun c => ClusterInfo.status c = running) (topClusters clusters)
  /\ topClusters clusters
     = take 6 (List.filter
                 (fun c => String.eqb (status_string (ClusterInfo.status c))
                                      "running") clusters).
Proof.
  set (f := fun c => String.eqb (status_string (ClusterInfo.status c)) "running").
  assert (Heq : topClusters clusters = take 6 (List.filter f clusters)).
  { unfold topClusters. fold f. change 6 with (0 + 6) at 1.
    rewrite JSArrayFacts.slice_window by lia. reflexivity. }
  split; [|split; [|split; [|exact Heq]]].
  - rewrite Heq, length_take.
    change (runningClusters (statistics (setup clusters)))
      with (Z.of_nat (length (List.filter f clusters))).
    lia.
  - rewrite Heq. etransitivity; [apply sublist_take|].
    apply ListViewFacts.filter_sublist.
  - rewrite Heq. apply Forall_forall. intros c Hc.
    pose proof (elem_of_sublist _ _ _ Hc
                  (sublist_take (List.filter f clusters) 6)) as Hc'.
    apply list_elem_of_In, List.filter_In in Hc' as [_ Hf]. unfold f in Hf.
    apply String.eqb_eq in Hf. now destruct (ClusterInfo.status c).
Qed.

End TimerFacts.

(** ** The menu *)

Module AppFacts.
Import App.

Lemma startsWith_append (p suf : string) :
  JSString.startsWith (p +:+ suf) p = true.
Proof. apply JSStringFacts.startsWith_spec. now exists suf. Qed.

(** X21. Wherever the list and the detail view send the router, the
    menu highlights the cluster item: a click on a row pushes the path
    of its detail page, the back button pushes the path of the list, and
    both paths have the active menu [/cluster]; selecting a menu item
    pushes its index, which is its own active menu; and taking the
    active menu twice changes nothing. *)
Theorem cluster_paths_highlight (row : ClusterInfo.t)
    (lst : ClusterList.State) (dst : ClusterDetail.State)
    (user : list UI.Settled) (path : string) :
  pushed (snd (UI.run (ClusterList.handleView row lst) user))
  = ["/cluster/detail/" +:+ ClusterInfo.id row]
  /\ activeMenu ("/cluster/detail/" +:+ ClusterInfo.id row) = "/cluster"
  /\ pushed (snd (UI.run (ClusterDetail.handleBack dst) user)) = ["/cluster"]
  /\ Forall (fun item =>
               pushed (snd (UI.run (handleMenuSelect (C:=Empty_set)
                                      (index item) tt) user))
               = [index item]
               /\ activeMenu (index item) = index item) menuItems
  /\ activeMenu (activeMenu path) = activeMenu path.
Proof.
  split; [reflexivity|]. split; [|split; [reflexivity | split]].
  - unfold activeMenu.
    change ("/cluster/detail/" +:+ ClusterInfo.id row)
      with ("/cluster" +:+ ("/detail/" +:+ ClusterInfo.id row)).
    now rewrite startsWith_append.
  - repeat constructor.
  - unfold activeMenu.
    destruct (JSString.startsWith path "/cluster") eqn:E;
      [reflexivity | now rewrite E].
Qed.

End AppFacts.

(** ** The arguments of the disk usage script *)

Module DiskUsageScriptFacts.
Import DiskUsageScript.

#[local] Arguments JSString.startsWith : simpl never.
#[local] Arguments String.eqb : simpl never.

Lemma case_of_known (arg : string) (v : Vars) :
  known arg = true <-> is_Some (case_of arg v).
Proof.
  unfold known, case_of.
  destruct (String.eqb arg "--remote"); simpl; [split; eauto|].
  repeat match goal with
         | |- context [JSString.startsWith arg ?p] =>
             destruct (JSString.startsWith arg p); simpl; [split; eauto|]
         end.
  split; [discriminate | intros [x Hx]; discriminate].
Qed.

Lemma case_of_unknown (arg : string) (v : Vars) :
  known arg = false -> case_of arg v = None.
Proof.
  intros H. destruct (case_of arg v) eqn:E; [|reflexivity].
  assert (Hk : known arg = true) by (apply (case_of_known arg v); eauto).
  congruence.
Qed.

(** X22. A word that no pattern of the [case] selects takes the word
    after it along: both are dropped without being looked at, so an
    option that follows an unknown word is not read. *)
Theorem unknown_word_skips_next (u a : string) (rest : list string) (v : Vars) :
  known u = false ->
  parse (u :: a :: rest) v = parse rest v /\ parse [u] v = v.
Proof.
  intros H. simpl. rewrite (case_of_unknown u v H). split; reflexivity.
Qed.

Lemma unknown_word_skips_next_witness :
  known "-v" = false
  /\ remote_mode (parse ["-v"; "--remote"; "--host=10.0.0.5"] unset) = false
  /\ HOST (parse ["-v"; "--remote"; "--host=10.0.0.5"] unset) = Some "10.0.0.5".
Proof.
  split; [reflexivity|].
  rewrite (proj1 (unknown_word_skips_next "-v" "--remote" ["--host=10.0.0.5"]
                    unset eq_refl)).
  split; reflexivity.
Defined.

(** Over words that the patterns select the loop is a fold. *)
Lemma parse_app_known (pre post : list string) (v : Vars) :
  forallb known pre = true ->
  parse (pre ++ post) v = parse post (parse pre v).
Proof.
  revert v; induction pre as [|a pre IH]; intros v H; [reflexivity|].
  simpl in H. apply andb_true_iff in H as [Ha H].
  apply (case_of_known a v) in Ha as [v' Hv'].
  simpl. rewrite Hv'. now apply IH.
Qed.

(** X23. After words that the patterns select, a last word
    [--host=VALUE] leaves [HOST] set to exactly [VALUE], whatever the
    value is (empty, or with further [=] signs in it) and whatever
    [HOST] was before; so do the other five options with a value for
    their variables. *)
Theorem option_value_round_trip (pre : list string) (value : string) (v : Vars) :
  forallb known pre = true ->
  HOST (parse (pre ++ ["--host=" +:+ value]) v) = Some value
  /\ USER (parse (pre ++ ["--user=" +:+ value]) v) = Some value
  /\ PASSWORD (parse (pre ++ ["--password=" +:+ value]) v) = Some value
  /\ PORT (parse (pre ++ ["--port=" +:+ value]) v) = Some value
  /\ TIMEOUT (parse (pre ++ ["--timeout=" +:+ value]) v) = Some value
  /\ KEY (parse (pre ++ ["--key=" +:+ value]) v) = Some value.
Proof.
  intros H. rewrite !(parse_app_known pre _ v H).
  repeat split; reflexivity.
Qed.

Lemma option_value_round_trip_witness :
  HOST (parse ["--remote"; "--host=old"; "--host=a=b"] unset) = Some "a=b".
Proof.
  exact (proj1 (option_value_round_trip ["--remote"; "--host=old"] "a=b"
                  unset eq_refl)).
Defined.

Lemma case_of_REMOTE_MODE (arg : string) (v v' : Vars) :
  case_of arg v = Some v' ->
  REMOTE_MODE v' = if String.eqb arg "--remote" then Some "1" else REMOTE_MODE v.
Proof.
  unfold case_of. destruct (String.eqb arg "--remote"); [now intros [= <-]|].
  repeat match goal with
         | |- context [JSString.startsWith arg ?p] =>
             destruct (JSString.startsWith arg p); [now intros [= <-]|]
         end.
  discriminate.
Qed.

Lemma parse_REMOTE_MODE (args : list string) (v : Vars) :
  forallb known args = true ->
  REMOTE_MODE (parse args v)
  = if bool_decide ("--remote" ∈ args) then Some "1" else REMOTE_MODE v.
Proof.
  revert v; induction args as [|a args IH]; intros v H.
  - reflexivity.
  - simpl in H. apply andb_true_iff in H as [Ha H].
    apply (case_of_known a v) in Ha as [v' Hv'].
    simpl. rewrite Hv', (IH v' H), (case_of_REMOTE_MODE a v v' Hv').
    destruct (String.eqb_spec a "--remote") as [->|Hne].
    + rewrite (bool_decide_eq_true_2 ("--remote" ∈ "--remote" :: args))
        by apply list_elem_of_here.
      now destruct (bool_decide _).
    + destruct (bool_decide ("--remote" ∈ args)) eqn:E.
      * apply bool_decide_eq_true_1 in E.
        now rewrite bool_decide_eq_true_2 by now apply list_elem_of_further.
      * apply bool_decide_eq_false_1 in E.
        rewrite bool_decide_eq_false_2; [reflexivity|].
        intros Hin. apply elem_of_cons in Hin as [Heq|Hin]; congruence.
Qed.

(** X24. When every word is one that the patterns select, the script
    takes the remote branch exactly when the word [--remote] is among
    the arguments, at whatever position and however often, or
    [REMOTE_MODE] was 1 beforehand. *)
Theorem remote_mode_iff (args : list string) (v : Vars) :
  forallb known args = true ->
  (remote_mode (parse args v) = true
   <-> "--remote" ∈ args \/ remote_mode v = true).
Proof.
  intros H. unfold remote_mode. rewrite (parse_REMOTE_MODE args v H).
  destruct (bool_decide ("--remote" ∈ args)) eqn:E.
  - apply bool_decide_eq_true_1 in E. split; [intros _; now left | reflexivity].
  - apply bool_decide_eq_false_1 in E. split; [now right | now intros [?|?]].
Qed.

Lemma remote_mode_iff_witness :
  remote_mode (parse ["--host=h"; "--remote"; "--port=2222"] unset) = true.
Proof.
  apply (remote_mode_iff ["--host=h"; "--remote"; "--port=2222"] unset eq_refl).
  left. apply list_elem_of_further, list_elem_of_here.
Defined.

End DiskUsageScriptFacts.
